(** * PBOC fixing model: the calculation engine of [fixing_app.py]

    A shallow embedding of [src/fixing_app.py]: the weight table [WEIGHTS],
    the overnight move extractor [get_market_data], the basket model
    [calculate_basket_impact], and the script's calculation engine with the
    volatility alert that follows it.

    Python's [float] is IEEE binary64.  The code is embedded once, over an
    interface [Arith] of the arithmetic operations the script uses, and the
    interface has two instances: exact rationals [Q] (the arithmetic in which
    the documentation states its formulas) and binary64 ([PrimFloat], the
    arithmetic the interpreter runs).  Statements that only follow the
    control flow are proved for every instance, binary64 among them.  What
    holds of binary64 without an analysis of rounding errors (zeros, signs,
    not-a-numbers, the nonzero denominator, the exact coercion of integers)
    is proved of binary64.  The rational instance states the identities of
    the documentation that the computed numbers satisfy only up to rounding;
    where such an identity fails as computed, a binary64 run shows it. *)

From Stdlib Require Import ZArith QArith Qabs Lqa Lia Floats.
From stdpp Require Import gmap strings.

Local Open Scope Z_scope.

(** ** Exceptions and results *)

(** The exceptions the embedded code can meet.  [OtherError] stands for
    whatever else the external download may raise (network, parsing...). *)
Inductive exn : Type :=
| KeyError (key : string)
| IndexError
| ZeroDivisionError
| OtherError (name : string).

Inductive result (A : Type) : Type :=
| Ok (a : A)
| Raise (e : exn).
Arguments Ok {A} a.
Arguments Raise {A} e.

#[global] Instance result_ret : MRet result := fun A a => Ok a.
#[global] Instance result_bind : MBind result := fun A B f m =>
  match m with
  | Ok a => f a
  | Raise e => Raise e
  end.

(** ** The arithmetic of the script *)

(** The numbers of the script and the operations it applies to them. *)
Class Arith (T : Type) : Type := {
  of_int : Z -> T;          (* an [int] operand coerced in mixed arithmetic *)
  lit : Q -> T;             (* a decimal [float] literal *)
  add : T -> T -> T;
  sub : T -> T -> T;
  mul : T -> T -> T;
  quot : T -> T -> T;       (* the quotient, for a nonzero divisor *)
  is_zero : T -> bool;      (* [x == 0] *)
  absv : T -> T;            (* [abs(x)] *)
  gtb : T -> T -> bool      (* [x > y] *)
}.

Declare Scope py_scope.
Delimit Scope py_scope with py.
Infix "+" := add : py_scope.
Infix "-" := sub : py_scope.
Infix "*" := mul : py_scope.

(** [a / b] on Python numbers: [ZeroDivisionError] on a zero divisor. *)
Definition truediv {T} `{Arith T} (a b : T) : result T :=
  if is_zero b then Raise ZeroDivisionError else Ok (quot a b).

(** *** Exact rationals

    [Qdiv] by zero is zero; [truediv] never calls it there, and the
    elementwise division of the extractor may (pandas gives an infinity or
    a NaN, as the binary64 instance does). *)

Definition Qgtb (x y : Q) : bool := negb (Qle_bool x y).

#[global] Instance Q_arith : Arith Q := {|
  of_int := inject_Z;
  lit := fun q => q;
  add := Qplus;
  sub := Qminus;
  mul := Qmult;
  quot := Qdiv;
  is_zero := fun x => Qeq_bool x 0;
  absv := Qabs;
  gtb := Qgtb
|}.

(** *** Binary64 *)

(** [float(n)]: the double nearest to the integer [n], ties to even.  It is
    [n] itself up to [2^53] in absolute value ([float_of_Z_exact] below),
    which covers the literals and every value of the slider; for such
    integers the quotient [m / n] of two [int]s is the quotient of their
    doubles.  Beyond [2^53] the coercion rounds, and Python's [m / n] is no
    longer the quotient of the two doubles; where the nearest double is
    infinite, CPython raises [OverflowError] instead of returning it.  What
    is stated of an integer outside the slider is therefore stated up to
    [2^53]. *)
Definition float_of_Z (n : Z) : float :=
  SF2Prim (binary_normalize prec emax n 0 false).

(** A decimal literal [n/d] denotes the nearest double; for numerator and
    denominator below [2^53] that is the correctly rounded quotient of the
    two (exact) doubles. *)
Definition float_of_decimal (q : Q) : float :=
  PrimFloat.div (float_of_Z (Qnum q)) (float_of_Z (Zpos (Qden q))).

#[global] Instance b64_arith : Arith float := {|
  of_int := float_of_Z;
  lit := float_of_decimal;
  add := PrimFloat.add;
  sub := PrimFloat.sub;
  mul := PrimFloat.mul;
  quot := PrimFloat.div;
  is_zero := fun x => PrimFloat.eqb x PrimFloat.zero;
  absv := PrimFloat.abs;
  gtb := fun x y => PrimFloat.ltb y x
|}.

(** ** Data model *)

Section Engine.
Context {T : Type} `{Arith T}.
Local Open Scope py_scope.

(** [WEIGHTS]: a dict literal, read only at constant keys that it has. *)
Record Weights : Type := {
  w_USD : T;
  w_EUR : T;
  w_JPY : T;
  w_KRW : T;
  w_GBP : T;
  w_AUD : T
}.

Definition WEIGHTS : Weights := {|
  w_USD := lit 0.198;
  w_EUR := lit 0.180;
  w_JPY := lit 0.090;
  w_KRW := lit 0.080;
  w_GBP := lit 0.030;
  w_AUD := lit 0.050
|}.

(** One entry of the snapshot: [{'rate': ..., 'chg': ...}]. *)
Record Quote : Type := { rate : T; chg : T }.

(** [d[k]] on a dict. *)
Definition getitem {V : Type} (d : gmap string V) (k : string) : result V :=
  match d !! k with
  | Some v => Ok v
  | None => Raise (KeyError k)
  end.

(** Truth value of [market_data]: [None] and the empty dict are falsy. *)
Definition truthy (market_data : option (gmap string Quote)) : bool :=
  match market_data with
  | None => false
  | Some d => negb (Nat.eqb (size d) 0)
  end.

(** ** [calculate_basket_impact]

    [W] is the global [WEIGHTS].  Past the guard [market_data] is a dict,
    [d] below. *)

Definition calculate_basket_impact (W : Weights) (prev_fix : T)
    (market_data : option (gmap string Quote)) : result T :=
  if negb (truthy market_data) then Ok (lit 0.0)
  else
    let d := default ∅ market_data in
    let impact_pips := lit 0.0 in
    eur ← getitem d "EURUSD";
    let eur_move := chg eur in
    r_eur ← truediv (w_EUR W) (of_int 1 - w_USD W);
    let impact_pips := impact_pips - (eur_move * r_eur) * prev_fix * of_int 10000 in
    jpy ← getitem d "USDJPY";
    let jpy_move := chg jpy in
    r_jpy ← truediv (w_JPY W) (of_int 1 - w_USD W);
    let impact_pips := impact_pips + (jpy_move * r_jpy) * prev_fix * of_int 10000 in
    gbp ← getitem d "GBPUSD";
    let gbp_move := chg gbp in
    r_gbp ← truediv (w_GBP W) (of_int 1 - w_USD W);
    let impact_pips := impact_pips - (gbp_move * r_gbp) * prev_fix * of_int 10000 in
    Ok impact_pips.

(** ** [get_market_data] *)

(** A pandas [Series] (one row of the price table): its labels and the
    value at each label. *)
Record Series : Type := { index : gset string; values : string -> T }.

(** [s[k]] on a [Series]. *)
Definition series_getitem (s : Series) (k : string) : result T :=
  if decide (k ∈ index s) then Ok (values s k) else Raise (KeyError k).

(** Elementwise arithmetic of two rows of one frame, which carry the same
    labels; elementwise division never raises. *)
Definition series_map2 (f : T -> T -> T) (a b : Series) : Series :=
  {| index := index a; values := fun k => f (values a k) (values b k) |}.

(** The table [yf.download(...)['Close']]: one column per symbol, one row
    per day, dates ascending. *)
Record DataFrame : Type := { columns : gset string; rows : list (string -> T) }.

(** [df.iloc[i]]: a negative [i] counts from the end. *)
Definition iloc (df : DataFrame) (i : Z) : result Series :=
  let n := Z.of_nat (length (rows df)) in
  let j := if (i <? 0)%Z then (n + i)%Z else i in
  if ((j <? 0) || (n <=? j))%Z then Raise IndexError
  else
    match rows df !! Z.to_nat j with
    | Some r => Ok {| index := columns df; values := r |}
    | None => Raise IndexError
    end.

(** The dict [tickers], in insertion order. *)
Definition tickers : list (string * string) :=
  [ ("EURUSD", "EURUSD=X");
    ("USDJPY", "JPY=X");
    ("GBPUSD", "GBPUSD=X");
    ("AUDUSD", "AUDUSD=X");
    ("USDCNY", "CNY=X") ].

(** [list(tickers.values())] *)
Definition tickers_values : list string := map snd tickers.

(** [tickers[k]] *)
Definition tickers_getitem (k : string) : result string :=
  match find (fun kv => String.eqb (fst kv) k) tickers with
  | Some kv => Ok (snd kv)
  | None => Raise (KeyError k)
  end.

(** One value of the dict literal built in [get_market_data]:
    [{'rate': last_close[tickers[pair]], 'chg': changes[tickers[pair]]}]. *)
Definition quote_entry (last_close changes : Series) (pair : string) : result Quote :=
  t ← tickers_getitem pair;
  r ← series_getitem last_close t;
  t' ← tickers_getitem pair;
  c ← series_getitem changes t';
  Ok {| rate := r; chg := c |}.

(** The body of the [try] block.  [yf_download] is the external call
    [yf.download(symbols, period="5d", interval="1d")['Close']]; the
    first assignment [data = {}] is overwritten or discarded. *)
Definition try_market_data (yf_download : list string -> result DataFrame)
    : result (gmap string Quote) :=
  df ← yf_download tickers_values;
  last_close ← iloc df (-1);
  prev_close ← iloc df (-2);
  let changes := series_map2 quot (series_map2 sub last_close prev_close) prev_close in
  eur ← quote_entry last_close changes "EURUSD";
  jpy ← quote_entry last_close changes "USDJPY";
  gbp ← quote_entry last_close changes "GBPUSD";
  aud ← quote_entry last_close changes "AUDUSD";
  Ok (<["EURUSD" := eur]> (<["USDJPY" := jpy]> (<["GBPUSD" := gbp]>
      (<["AUDUSD" := aud]> ∅)))).

(** What the script shows on the page. *)
Inductive warning : Type := NeutralBasket | HighVolatility.

Inductive ui : Type :=
| st_error (e : exn)                         (* "Data Feed Error: ..." *)
| st_warning (w : warning)
| st_metric (label : string) (value delta : T)
| st_box (title : string) (value : T)
| st_bar_chart (gap basket : T) (ccf : Z).

(** [get_market_data]: [except Exception] reports the error and returns
    [None].  (The [st.cache_data] decorator only memoises the call.) *)
Definition get_market_data (yf_download : list string -> result DataFrame)
    : option (gmap string Quote) * list ui :=
  match try_market_data yf_download with
  | Ok data => (Some data, [])
  | Raise e => (None, [st_error e])
  end.

(** ** The calculation engine *)

(** The values the script computes between "Calculation Engine" and the
    display of the theoretical fix. *)
Record Calc : Type := {
  gap_pips : T;
  basket_pips : T;
  ccf_pips : Z;
  total_change_pips : T;
  predicted_fix : T;
  theoretical_fix : T
}.

(** [W] is the global [WEIGHTS]; [ccf_input] is the slider's [int]: it is
    coerced in the sum, and [ccf_pips / 10000] is the quotient of the two
    integers.  The last field is the expression shown as "Theoretical Fix". *)
Definition calculation_engine (W : Weights) (prev_close prev_fix : T)
    (market_data : option (gmap string Quote)) (ccf_input : Z) : result Calc :=
  let gap_pips := (prev_close - prev_fix) * of_int 10000 in
  basket_pips ← calculate_basket_impact W prev_fix market_data;
  let ccf_pips := ccf_input in
  let total_change_pips := gap_pips + basket_pips + of_int ccf_pips in
  move ← truediv total_change_pips (of_int 10000);
  let predicted_fix := prev_fix + move in
  ccf ← truediv (of_int ccf_pips) (of_int 10000);
  Ok {| gap_pips := gap_pips;
        basket_pips := basket_pips;
        ccf_pips := ccf_pips;
        total_change_pips := total_change_pips;
        predicted_fix := predicted_fix;
        theoretical_fix := predicted_fix - ccf |}.

(** The four metrics of "Overnight Basket Moves". *)
Definition show_metric (d : gmap string Quote) (label pair : string) : result ui :=
  q ← getitem d pair;
  q' ← getitem d pair;
  Ok (st_metric label (rate q) (chg q')).

(** One run of the script below the inputs. *)
Definition app (W : Weights) (yf_download : list string -> result DataFrame)
    (prev_close prev_fix : T) (ccf_input : Z) : result (list ui) :=
  let '(market_data, feed) := get_market_data yf_download in
  moves ←
    (if truthy market_data then
       let d := default ∅ market_data in
       c1 ← show_metric d "EUR/USD" "EURUSD";
       c2 ← show_metric d "USD/JPY" "USDJPY";
       c3 ← show_metric d "GBP/USD" "GBPUSD";
       c4 ← show_metric d "AUD/USD" "AUDUSD";
       Ok [c1; c2; c3; c4]
     else Ok [st_warning NeutralBasket]);
  c ← calculation_engine W prev_close prev_fix market_data ccf_input;
  let prediction :=
    [ st_box "Theoretical Fix (No CCF)" (theoretical_fix c);
      st_box "FINAL PREDICTION (With CCF)" (predicted_fix c);
      st_bar_chart (gap_pips c) (basket_pips c) (ccf_pips c) ] in
  let alert :=
    if gtb (absv (predicted_fix c - prev_close)) (lit 0.0500)
    then [st_warning HighVolatility] else [] in
  Ok (feed ++ moves ++ prediction ++ alert).

End Engine.

Arguments Weights T : clear implicits.
Arguments Quote T : clear implicits.
Arguments Series T : clear implicits.
Arguments DataFrame T : clear implicits.
Arguments Calc T : clear implicits.
Arguments ui T : clear implicits.


(** * Vocabulary of the statements *)

Section Vocabulary.
Context {T : Type} {A : Arith T}.
Local Open Scope py_scope.

(** The value [calculate_basket_impact] accumulates, in the order and
    association of the source, from the three moves it reads. *)
Definition impact_of (W : Weights T) (prev_fix eur_move jpy_move gbp_move : T) : T :=
  let den := of_int 1 - w_USD W in
  lit 0.0
  - (eur_move * quot (w_EUR W) den) * prev_fix * of_int 10000
  + (jpy_move * quot (w_JPY W) den) * prev_fix * of_int 10000
  - (gbp_move * quot (w_GBP W) den) * prev_fix * of_int 10000.

(** A snapshot of the four pairs. *)
Definition snapshot_of (eur jpy gbp aud : Quote T) : gmap string (Quote T) :=
  <["EURUSD" := eur]> (<["USDJPY" := jpy]> (<["GBPUSD" := gbp]>
    (<["AUDUSD" := aud]> ∅))).

(** The snapshot entry of symbol [t], from the prior row [p] and the
    latest row [l]. *)
Definition quote_from (p l : string -> T) (t : string) : Quote T :=
  {| rate := l t; chg := quot (l t - p t) (p t) |}.

Definition snapshot_from (p l : string -> T) : gmap string (Quote T) :=
  <["EURUSD" := quote_from p l "EURUSD=X"]>
  (<["USDJPY" := quote_from p l "JPY=X"]>
  (<["GBPUSD" := quote_from p l "GBPUSD=X"]>
  (<["AUDUSD" := quote_from p l "AUDUSD=X"]> ∅))).

(** The four symbols that end up in the snapshot. *)
Definition snapshot_symbols : list string :=
  ["EURUSD=X"; "JPY=X"; "GBPUSD=X"; "AUDUSD=X"].


(** The record the engine builds once the basket component [b] is known. *)
Definition calc_of (prev_close prev_fix b : T) (ccf : Z) : Calc T :=
  let gap := (prev_close - prev_fix) * of_int 10000 in
  let total := gap + b + of_int ccf in
  let predicted := prev_fix + quot total (of_int 10000) in
  {| gap_pips := gap;
     basket_pips := b;
     ccf_pips := ccf;
     total_change_pips := total;
     predicted_fix := predicted;
     theoretical_fix := predicted - quot (of_int ccf) (of_int 10000) |}.

Definition is_alert (u : ui T) : Prop := u = st_warning HighVolatility.

(** The page of a completed run (empty for a run that raised). *)
Definition page_of (r : result (list (ui T))) : list (ui T) :=
  match r with
  | Ok events => events
  | Raise _ => []
  end.

(** Two downloads: one that raises, and one that returns the two rows [p]
    and [l] for the symbols asked. *)
Definition feed_down : list string -> result (DataFrame T) :=
  fun _ => Raise (OtherError "ConnectionError").

Definition two_days (p l : string -> T) : list string -> result (DataFrame T) :=
  fun symbols => Ok {| columns := list_to_set symbols; rows := [p; l] |}.

End Vocabulary.

(** A binary64 download in which EURUSD falls 3% and nothing else moves. *)
Definition eur_minus_3pct : list string -> result (DataFrame float) :=
  two_days (fun _ => lit 1.00)
           (fun t => if String.eqb t "EURUSD=X" then lit 0.97 else lit 1.00).


Definition SFzero (x : spec_float) : Prop := exists s, x = S754_zero s.




(** ** The page, piece by piece *)

Section PageVocabulary.
Context {T : Type} {A : Arith T}.
Local Open Scope py_scope.

(** The first symbol of the snapshot that a table lacks, in the order in
    which the dict literal reads them. *)
Definition first_missing (cols : gset string) : option string :=
  find (fun t => negb (bool_decide (t ∈ cols))) snapshot_symbols.

(** The part of the page below "Prediction Model". *)
Definition prediction_page (prev_close : T) (c : Calc T) : list (ui T) :=
  [ st_box "Theoretical Fix (No CCF)" (theoretical_fix c);
    st_box "FINAL PREDICTION (With CCF)" (predicted_fix c);
    st_bar_chart (gap_pips c) (basket_pips c) (ccf_pips c) ] ++
  (if gtb (absv (predicted_fix c - prev_close)) (lit 0.0500)
   then [st_warning HighVolatility] else []).

(** The four metrics, from the prior row [p] and the latest row [l]. *)
Definition moves_page (p l : string -> T) : list (ui T) :=
  [ st_metric "EUR/USD" (l "EURUSD=X") (quot (l "EURUSD=X" - p "EURUSD=X") (p "EURUSD=X"));
    st_metric "USD/JPY" (l "JPY=X") (quot (l "JPY=X" - p "JPY=X") (p "JPY=X"));
    st_metric "GBP/USD" (l "GBPUSD=X") (quot (l "GBPUSD=X" - p "GBPUSD=X") (p "GBPUSD=X"));
    st_metric "AUD/USD" (l "AUDUSD=X") (quot (l "AUDUSD=X" - p "AUDUSD=X") (p "AUDUSD=X")) ].

(** The basket impact of the snapshot built from the rows [p] and [l]. *)
Definition impact_from (W : Weights T) (prev_fix : T) (p l : string -> T) : T :=
  impact_of W prev_fix
    (quot (l "EURUSD=X" - p "EURUSD=X") (p "EURUSD=X"))
    (quot (l "JPY=X" - p "JPY=X") (p "JPY=X"))
    (quot (l "GBPUSD=X" - p "GBPUSD=X") (p "GBPUSD=X")).

End PageVocabulary.

(** * Properties *)

Lemma bind_Ok {X Y} (a : X) (f : X -> result Y) : (x ← Ok a; f x) = f a.
Proof. reflexivity. Qed.

Lemma bind_Ok_inv {X Y} (m : result X) (f : X -> result Y) (y : Y) :
  (x ← m; f x) = Ok y -> exists a, m = Ok a /\ f a = Ok y.
Proof. destruct m as [a|e]; [exists a; split; [reflexivity|assumption] | discriminate]. Qed.

(** ** Control flow, in any arithmetic *)

Section ControlFlow.
Context {T : Type} {A : Arith T}.
Local Open Scope py_scope.

Implicit Types (W : Weights T) (d : gmap string (Quote T)).

Lemma truthy_lookup d k q : d !! k = Some q -> truthy (Some d) = true.
Proof.
  intros Hk. unfold truthy.
  destruct (size d) eqn:Hsz; [|reflexivity].
  apply map_size_empty_inv in Hsz. subst d.
  rewrite lookup_empty in Hk. discriminate.
Qed.

Lemma truthy_empty : truthy (Some (∅ : gmap string (Quote T))) = false.
Proof. unfold truthy. rewrite map_size_empty. reflexivity. Qed.

Lemma getitem_Some {V} (m : gmap string V) k v : m !! k = Some v -> getitem m k = Ok v.
Proof. unfold getitem. intros ->. reflexivity. Qed.

Lemma getitem_Raise {V} (m : gmap string V) k e : getitem m k = Raise e -> e = KeyError k.
Proof. unfold getitem. destruct (m !! k); congruence. Qed.

Lemma basket_absent W prev_fix :
  calculate_basket_impact W prev_fix None = Ok (lit 0.0).
Proof. reflexivity. Qed.

(** A snapshot holding the three pairs the model reads. *)
Lemma basket_present W prev_fix d eur jpy gbp :
  d !! "EURUSD" = Some eur -> d !! "USDJPY" = Some jpy -> d !! "GBPUSD" = Some gbp ->
  calculate_basket_impact W prev_fix (Some d) =
    if is_zero (of_int 1 - w_USD W) then Raise ZeroDivisionError
    else Ok (impact_of W prev_fix (chg eur) (chg jpy) (chg gbp)).
Proof.
  intros He Hj Hg. unfold calculate_basket_impact.
  rewrite (truthy_lookup _ _ _ He). cbn [negb]. unfold default. cbn [from_option id].
  rewrite (getitem_Some _ _ _ He), (getitem_Some _ _ _ Hj), (getitem_Some _ _ _ Hg).
  unfold truediv, impact_of.
  destruct (is_zero (of_int 1 - w_USD W)); reflexivity.
Qed.

(** The only division is by [1 - WEIGHTS['USD']]. *)
Lemma basket_zero_division W prev_fix market_data :
  calculate_basket_impact W prev_fix market_data = Raise ZeroDivisionError ->
  is_zero (of_int 1 - w_USD W) = true.
Proof.
  unfold calculate_basket_impact, truediv.
  destruct (truthy market_data); cbn [negb]; [|discriminate].
  destruct (is_zero (of_int 1 - w_USD W)); [intros _; reflexivity|].
  intros Hr.
  repeat match type of Hr with
  | context [getitem ?m ?k] =>
      let E := fresh "E" in
      destruct (getitem m k) eqn:E; cbn in Hr;
      [|apply getitem_Raise in E; congruence]
  end.
  discriminate Hr.
Qed.

Lemma basket_no_zero_division W prev_fix market_data :
  is_zero (of_int 1 - w_USD W) = false ->
  calculate_basket_impact W prev_fix market_data <> Raise ZeroDivisionError.
Proof.
  intros Hden Hr. apply basket_zero_division in Hr. congruence.
Qed.



Lemma basket_snapshot_of W prev_fix (eur jpy gbp aud : Quote T) :
  calculate_basket_impact W prev_fix (Some (snapshot_of eur jpy gbp aud)) =
    if is_zero (of_int 1 - w_USD W)%py then Raise ZeroDivisionError
    else Ok (impact_of W prev_fix (chg eur) (chg jpy) (chg gbp)).
Proof. apply basket_present; reflexivity. Qed.

End ControlFlow.

(** ** The extractor, in any arithmetic *)

Section Extractor.
Context {T : Type} {A : Arith T}.
Local Open Scope py_scope.

Implicit Types (df : DataFrame T) (yf_download : list string -> result (DataFrame T)).

Local Ltac out_of_range Hb :=
  apply orb_true_iff in Hb; destruct Hb as [Hb|Hb];
  [apply Z.ltb_lt in Hb | apply Z.leb_le in Hb]; lia.

Lemma rows_split2 {X} (l : list X) :
  (2 <= length l)%nat -> exists pre a b, l = pre ++ [a; b].
Proof.
  intros Hlen.
  destruct (rev l) as [|b [|a r]] eqn:Hrev.
  - apply (f_equal (@length X)) in Hrev. rewrite length_rev in Hrev. simpl in Hrev. lia.
  - apply (f_equal (@length X)) in Hrev. rewrite length_rev in Hrev. simpl in Hrev. lia.
  - exists (rev r), a, b.
    rewrite <- (rev_involutive l), Hrev. simpl. rewrite <- app_assoc. reflexivity.
Qed.

Lemma iloc_last df pre p l :
  rows df = pre ++ [p; l] ->
  iloc df (-1) = Ok {| index := columns df; values := l |}.
Proof.
  intros Hrows. unfold iloc. rewrite Hrows, length_app. cbn [length].
  replace ((-1 <? 0)%Z) with true by reflexivity.
  destruct (_ || _)%Z eqn:Hb; [out_of_range Hb|].
  replace (Z.to_nat (Z.of_nat (length pre + 2) + -1)) with (length pre + 1)%nat by lia.
  rewrite lookup_app_r by lia.
  replace (length pre + 1 - length pre)%nat with 1%nat by lia. reflexivity.
Qed.

Lemma iloc_prior df pre p l :
  rows df = pre ++ [p; l] ->
  iloc df (-2) = Ok {| index := columns df; values := p |}.
Proof.
  intros Hrows. unfold iloc. rewrite Hrows, length_app. cbn [length].
  replace ((-2 <? 0)%Z) with true by reflexivity.
  destruct (_ || _)%Z eqn:Hb; [out_of_range Hb|].
  replace (Z.to_nat (Z.of_nat (length pre + 2) + -2)) with (length pre + 0)%nat by lia.
  rewrite lookup_app_r by lia.
  replace (length pre + 0 - length pre)%nat with 0%nat by lia. reflexivity.
Qed.

Lemma iloc_short df :
  (length (rows df) < 2)%nat ->
  iloc df (-1) = Raise IndexError \/ iloc df (-2) = Raise IndexError.
Proof.
  intros Hlen. unfold iloc.
  destruct (rows df) as [|r0 [|r1 rs]]; cbn [length] in *;
    [left; reflexivity|right; reflexivity|lia].
Qed.

Lemma quote_entry_row cols p l pair t :
  tickers_getitem pair = Ok t ->
  let last_close := {| index := cols; values := l |} in
  let prev_close := {| index := cols; values := p |} in
  quote_entry last_close
    (series_map2 quot (series_map2 sub last_close prev_close) prev_close) pair =
  if decide (t ∈ cols) then Ok (quote_from p l t) else Raise (KeyError t).
Proof.
  intros Ht. cbv zeta. unfold quote_entry. rewrite Ht, bind_Ok.
  unfold series_getitem. cbn [index values series_map2].
  destruct (decide (t ∈ cols)) as [Hin|Hin]; [|reflexivity].
  rewrite !bind_Ok, decide_True by assumption. reflexivity.
Qed.

(** The [try] block succeeds exactly on a table of at least two rows that
    has the four symbols, and then yields [snapshot_from] its last two rows. *)
Lemma try_market_data_Ok yf_download df pre p l :
  yf_download tickers_values = Ok df ->
  rows df = pre ++ [p; l] ->
  Forall (fun t => t ∈ columns df) snapshot_symbols ->
  try_market_data yf_download = Ok (snapshot_from p l).
Proof.
  intros Hdl Hrows Hcols. unfold try_market_data.
  rewrite Hdl, bind_Ok, (iloc_last _ _ _ _ Hrows), bind_Ok,
    (iloc_prior _ _ _ _ Hrows), bind_Ok.
  cbv zeta.
  unfold snapshot_symbols in Hcols.
  rewrite !Forall_cons in Hcols. destruct Hcols as (He & Hj & Hg & Ha & _).
  rewrite (quote_entry_row _ _ _ "EURUSD" "EURUSD=X") by reflexivity.
  rewrite decide_True, bind_Ok by assumption.
  rewrite (quote_entry_row _ _ _ "USDJPY" "JPY=X") by reflexivity.
  rewrite decide_True, bind_Ok by assumption.
  rewrite (quote_entry_row _ _ _ "GBPUSD" "GBPUSD=X") by reflexivity.
  rewrite decide_True, bind_Ok by assumption.
  rewrite (quote_entry_row _ _ _ "AUDUSD" "AUDUSD=X") by reflexivity.
  rewrite decide_True, bind_Ok by assumption.
  reflexivity.
Qed.

Lemma try_market_data_inv yf_download d :
  try_market_data yf_download = Ok d ->
  exists df pre p l,
    yf_download tickers_values = Ok df /\
    rows df = pre ++ [p; l] /\
    Forall (fun t => t ∈ columns df) snapshot_symbols /\
    d = snapshot_from p l.
Proof.
  unfold try_market_data. intros Hrun.
  apply bind_Ok_inv in Hrun as (df & Hdl & Hrun).
  destruct (Nat.lt_ge_cases (length (rows df)) 2) as [Hshort|Hlong].
  { destruct (iloc_short _ Hshort) as [E|E].
    - rewrite E in Hrun. discriminate Hrun.
    - destruct (iloc df (-1)) as [s1|e1]; [|discriminate Hrun].
      rewrite bind_Ok, E in Hrun. discriminate Hrun. }
  destruct (rows_split2 _ Hlong) as (pre & p & l & Hrows).
  rewrite (iloc_last _ _ _ _ Hrows), bind_Ok, (iloc_prior _ _ _ _ Hrows), bind_Ok in Hrun.
  cbv zeta in Hrun.
  rewrite (quote_entry_row _ _ _ "EURUSD" "EURUSD=X") in Hrun by reflexivity.
  destruct (decide ("EURUSD=X" ∈ columns df)) as [He|]; [|discriminate Hrun].
  rewrite bind_Ok, (quote_entry_row _ _ _ "USDJPY" "JPY=X") in Hrun by reflexivity.
  destruct (decide ("JPY=X" ∈ columns df)) as [Hj|]; [|discriminate Hrun].
  rewrite bind_Ok, (quote_entry_row _ _ _ "GBPUSD" "GBPUSD=X") in Hrun by reflexivity.
  destruct (decide ("GBPUSD=X" ∈ columns df)) as [Hg|]; [|discriminate Hrun].
  rewrite bind_Ok, (quote_entry_row _ _ _ "AUDUSD" "AUDUSD=X") in Hrun by reflexivity.
  destruct (decide ("AUDUSD=X" ∈ columns df)) as [Ha|]; [|discriminate Hrun].
  rewrite bind_Ok in Hrun. injection Hrun as <-.
  exists df, pre, p, l. repeat split; try assumption.
  unfold snapshot_symbols. repeat constructor; assumption.
Qed.

End Extractor.

(** ** The engine, in any arithmetic *)

Section EngineFacts.
Context {T : Type} {A : Arith T}.
Local Open Scope py_scope.

Implicit Types (W : Weights T) (market_data : option (gmap string (Quote T))).

Lemma truthy_false_basket W prev_fix market_data :
  truthy market_data = false ->
  calculate_basket_impact W prev_fix market_data = Ok (lit 0.0).
Proof. intros Ht. unfold calculate_basket_impact. rewrite Ht. reflexivity. Qed.


Lemma truediv_Ok_inv (a b q : T) : truediv a b = Ok q -> q = quot a b.
Proof. unfold truediv. destruct (is_zero b); congruence. Qed.

(** Whatever the engine returns is [calc_of] the basket component. *)
Lemma engine_inv W prev_close prev_fix market_data ccf c :
  calculation_engine W prev_close prev_fix market_data ccf = Ok c ->
  exists b, calculate_basket_impact W prev_fix market_data = Ok b /\
    c = calc_of prev_close prev_fix b ccf.
Proof.
  unfold calculation_engine. intros Hrun.
  apply bind_Ok_inv in Hrun as (b & Hb & Hrun).
  apply bind_Ok_inv in Hrun as (mv & Hmv & Hrun).
  apply bind_Ok_inv in Hrun as (cq & Hcq & Hrun).
  apply truediv_Ok_inv in Hmv, Hcq. subst mv cq.
  injection Hrun as <-. exists b. split; [assumption|reflexivity].
Qed.

Lemma engine_raise W prev_close prev_fix market_data ccf e :
  calculate_basket_impact W prev_fix market_data = Raise e ->
  calculation_engine W prev_close prev_fix market_data ccf = Raise e.
Proof. unfold calculation_engine. intros ->. reflexivity. Qed.

(** The literal divisor is not zero (true of both instances below). *)
Hypothesis ten_thousand_nonzero : is_zero (of_int 10000 : T) = false.

Lemma engine_returns W prev_close prev_fix market_data ccf b :
  calculate_basket_impact W prev_fix market_data = Ok b ->
  calculation_engine W prev_close prev_fix market_data ccf =
    Ok (calc_of prev_close prev_fix b ccf).
Proof.
  unfold calculation_engine, truediv. intros ->.
  rewrite bind_Ok, ten_thousand_nonzero. reflexivity.
Qed.

End EngineFacts.

Lemma Q_ten_thousand_nonzero : is_zero (of_int 10000 : Q) = false.
Proof. reflexivity. Qed.

Lemma b64_ten_thousand_nonzero : is_zero (of_int 10000 : float) = false.
Proof. vm_compute. reflexivity. Qed.

(** ** The page, in any arithmetic *)

Section Page.
Context {T : Type} {A : Arith T}.
Local Open Scope py_scope.

Implicit Types (W : Weights T) (yf_download : list string -> result (DataFrame T)).

Lemma feed_no_alert yf_download :
  Forall (fun u => ~ is_alert u) (snd (get_market_data yf_download)).
Proof.
  unfold get_market_data. destruct (try_market_data yf_download); cbn [snd].
  - constructor.
  - constructor; [discriminate|constructor].
Qed.

Lemma show_metric_no_alert (d : gmap string (Quote T)) label pair u :
  show_metric d label pair = Ok u -> ~ is_alert u.
Proof.
  unfold show_metric. intros Hm.
  apply bind_Ok_inv in Hm as (q & _ & Hm).
  apply bind_Ok_inv in Hm as (q' & _ & Hm).
  injection Hm as <-. discriminate.
Qed.

(** A completed run: the engine ran on the fetched snapshot, and the page
    is the feed message, the moves, the prediction and the alert. *)
Lemma app_inv W yf_download prev_close prev_fix ccf events :
  app W yf_download prev_close prev_fix ccf = Ok events ->
  exists moves c,
    calculation_engine W prev_close prev_fix (fst (get_market_data yf_download)) ccf = Ok c /\
    Forall (fun u => ~ is_alert u) moves /\
    events =
      snd (get_market_data yf_download) ++ moves ++
      [ st_box "Theoretical Fix (No CCF)" (theoretical_fix c);
        st_box "FINAL PREDICTION (With CCF)" (predicted_fix c);
        st_bar_chart (gap_pips c) (basket_pips c) (ccf_pips c) ] ++
      (if gtb (absv (predicted_fix c - prev_close)) (lit 0.0500)
       then [st_warning HighVolatility] else []).
Proof.
  unfold app. destruct (get_market_data yf_download) as [market_data feed].
  cbn [fst snd]. intros Hrun.
  apply bind_Ok_inv in Hrun as (moves & Hmoves & Hrun).
  apply bind_Ok_inv in Hrun as (c & Hc & Hrun).
  injection Hrun as <-. exists moves, c. repeat split; [assumption|].
  destruct (truthy market_data).
  - apply bind_Ok_inv in Hmoves as (c1 & H1 & Hmoves).
    apply bind_Ok_inv in Hmoves as (c2 & H2 & Hmoves).
    apply bind_Ok_inv in Hmoves as (c3 & H3 & Hmoves).
    apply bind_Ok_inv in Hmoves as (c4 & H4 & Hmoves).
    injection Hmoves as <-.
    repeat constructor; eapply show_metric_no_alert; eassumption.
  - injection Hmoves as <-. constructor; [discriminate|constructor].
Qed.

(** Without a snapshot the page is still produced, with the neutral-basket
    warning on it. *)
Lemma app_absent W yf_download prev_close prev_fix ccf :
  is_zero (of_int 10000 : T) = false ->
  fst (get_market_data yf_download) = None ->
  exists events,
    app W yf_download prev_close prev_fix ccf = Ok events /\
    In (st_warning NeutralBasket) events /\
    In (st_box "FINAL PREDICTION (With CCF)"
          (predicted_fix (calc_of prev_close prev_fix (lit 0.0) ccf))) events.
Proof.
  intros H10 Hnone. unfold app.
  destruct (get_market_data yf_download) as [market_data feed].
  cbn [fst] in Hnone. subst market_data. cbn [truthy]. rewrite bind_Ok.
  rewrite (engine_returns H10 _ _ _ _ _ _ (basket_absent _ _)), bind_Ok.
  eexists. split; [reflexivity|].
  split; apply in_or_app; right; cbn; auto.
Qed.

End Page.

(** ** Exact arithmetic *)

Section Exact.
Local Open Scope Q_scope.

Implicit Types (W : Weights Q) (d : gmap string (Quote Q)).

Lemma Q_is_zero_true (x : Q) : is_zero x = true <-> x == 0.
Proof. apply Qeq_bool_iff. Qed.

Lemma Q_is_zero_false (x : Q) : is_zero x = false <-> ~ x == 0.
Proof.
  rewrite <- Q_is_zero_true. destruct (is_zero x); split; try tauto; discriminate.
Qed.

Lemma Q_denominator W : ~ w_USD W == 1 -> is_zero (of_int 1 - w_USD W)%py = false.
Proof.
  intros Hw. apply Q_is_zero_false. cbn. intros Hz. apply Hw.
  unfold inject_Z in Hz. lra.
Qed.


End Exact.

(** ** Binary64

    Facts of the interpreter's arithmetic that need no error analysis: they
    follow from the specification of the primitive operations on zeros, on
    signs, on the least exponent and on integers that fit the mantissa. *)

Section Binary64.




Lemma SFcompare_refl (x : spec_float) : x <> S754_nan -> SFcompare x x = Some Eq.
Proof.
  destruct x as [s|s| |s m e]; cbn; try congruence; intros _.
  - destruct s; reflexivity.
  - rewrite Z.compare_refl, Pos.compare_cont_refl. destruct s; reflexivity.
Qed.



Lemma b64_is_zero_spec (x : float) : is_zero x = true <-> SFzero (Prim2SF x).
Proof.
  cbn. rewrite FloatAxioms.eqb_spec. change (Prim2SF PrimFloat.zero) with (S754_zero false).
  unfold SFzero. destruct (Prim2SF x) as [s|s| |s m e]; cbn; split;
    try discriminate; try (intros [s' Hs]; discriminate Hs); eauto.
  - destruct s; discriminate.
  - destruct s; discriminate.
Qed.






(** *** Rounding a nonzero number above the least exponent *)

Abbreviation fexp64 := (fexp prec emax).

Lemma fexp64_unfold (e : Z) : fexp64 e = Z.max (e - 53) (-1074).
Proof. reflexivity. Qed.

Lemma shr_1_pos (p : positive) (r s : bool) :
  (1 < Zpos (digits2_pos p))%Z ->
  exists q, shr_m (shr_1 {| shr_m := Zpos p; shr_r := r; shr_s := s |}) = Zpos q /\
            (Zpos (digits2_pos q) = Zpos (digits2_pos p) - 1)%Z.
Proof.
  destruct p as [q|q|]; cbn [digits2_pos shr_1 shr_m]; intros Hd.
  - exists q. split; [reflexivity|lia].
  - exists q. split; [reflexivity|lia].
  - lia.
Qed.

Lemma iter_shr_1_pos (n : positive) :
  forall (mrs : shr_record) (p : positive),
    shr_m mrs = Zpos p -> (Zpos n < Zpos (digits2_pos p))%Z ->
    exists q, shr_m (SpecFloat.iter_pos shr_1 n mrs) = Zpos q /\
              (Zpos (digits2_pos q) = Zpos (digits2_pos p) - Zpos n)%Z.
Proof.
  induction n as [n IH|n IH|]; intros [m r s] p Hm Hn; cbn [shr_m] in Hm; subst m;
    cbn [SpecFloat.iter_pos].
  - destruct (shr_1_pos p r s) as (q0 & Hq0 & Hd0); [lia|].
    destruct (IH _ q0 Hq0) as (q1 & Hq1 & Hd1); [lia|].
    destruct (IH _ q1 Hq1) as (q2 & Hq2 & Hd2); [lia|].
    exists q2. split; [exact Hq2|lia].
  - destruct (IH {| shr_m := Zpos p; shr_r := r; shr_s := s |} p eq_refl)
      as (q1 & Hq1 & Hd1); [lia|].
    destruct (IH _ q1 Hq1) as (q2 & Hq2 & Hd2); [lia|].
    exists q2. split; [exact Hq2|lia].
  - apply shr_1_pos. lia.
Qed.

Lemma shr_fexp_pos (p : positive) (e : Z) (l : location) :
  (-1074 <= e)%Z ->
  exists mrs e' q, shr_fexp prec emax (Zpos p) e l = (mrs, e') /\
                   shr_m mrs = Zpos q /\ (-1074 <= e')%Z.
Proof.
  intros He. unfold shr_fexp, shr. cbn [Zdigits2]. rewrite fexp64_unfold.
  destruct (Z.max (Zpos (digits2_pos p) + e - 53) (-1074) - e)%Z as [|n|n] eqn:Hn.
  - exists (shr_record_of_loc (Zpos p) l), e, p.
    split; [reflexivity|]. split; [destruct l as [|[| |]]; reflexivity|exact He].
  - destruct (iter_shr_1_pos n (shr_record_of_loc (Zpos p) l) p) as (q & Hq & _).
    + destruct l as [|[| |]]; reflexivity.
    + lia.
    + eexists _, _, q. split; [reflexivity|]. split; [exact Hq|lia].
  - exists (shr_record_of_loc (Zpos p) l), e, p.
    split; [reflexivity|]. split; [destruct l as [|[| |]]; reflexivity|exact He].
Qed.

Lemma round_nearest_even_pos (p : positive) (l : location) :
  exists q, round_nearest_even (Zpos p) l = Zpos q.
Proof.
  destruct l as [|[| |]]; cbn [round_nearest_even];
    try destruct (Z.even (Zpos p)); eauto.
Qed.

Lemma binary_round_aux_nonzero (sx : bool) (p : positive) (e : Z) (l : location) :
  (-1074 <= e)%Z -> ~ SFzero (binary_round_aux prec emax sx (Zpos p) e l).
Proof.
  intros He. unfold binary_round_aux.
  destruct (shr_fexp_pos p e l He) as (mrs1 & e1 & q1 & -> & Hq1 & He1).
  rewrite Hq1.
  destruct (round_nearest_even_pos q1 (loc_of_shr_record mrs1)) as (q2 & ->).
  destruct (shr_fexp_pos q2 e1 loc_Exact He1) as (mrs2 & e2 & q3 & -> & -> & _).
  destruct (e2 <=? emax - prec)%Z; intros [s Hs]; discriminate Hs.
Qed.

Lemma binary_round_nonzero (sx : bool) (p : positive) (e : Z) :
  (-1074 <= e)%Z -> ~ SFzero (binary_round prec emax sx p e).
Proof.
  intros He. unfold binary_round, shl_align. rewrite fexp64_unfold.
  destruct (Z.max (Zpos (digits2_pos p) + e - 53) (-1074) - e)%Z;
    apply binary_round_aux_nonzero; lia.
Qed.

Lemma digits2_pos_bound (p : positive) : (Zpos p < 2 ^ Zpos (digits2_pos p))%Z.
Proof.
  induction p as [p IH|p IH|]; cbn [digits2_pos].
  - rewrite Pos2Z.inj_succ, Z.pow_succ_r by lia. lia.
  - rewrite Pos2Z.inj_succ, Z.pow_succ_r by lia. lia.
  - reflexivity.
Qed.

Lemma shl_align_value (mx : positive) (ex ez : Z) :
  (ez <= ex)%Z -> Zpos (fst (shl_align mx ex ez)) = (Zpos mx * 2 ^ (ex - ez))%Z.
Proof.
  intros Hle. unfold shl_align.
  destruct (ez - ex)%Z as [|d|d] eqn:Hd; cbn [fst]; [|lia|].
  - replace (ex - ez)%Z with 0%Z by lia. lia.
  - replace (ex - ez)%Z with (Zpos d) by lia.
    change (Pos.iter xO mx d) with (shift_pos d mx).
    rewrite shift_pos_correct. change (2 ^ Zpos d)%Z with (Z.pow_pos 2 d). lia.
Qed.

(** *** The coercion of an integer *)







(** In binary64, [w < 1] makes [1 - w] a number other than zero. *)
Lemma b64_denominator (w : float) :
  PrimFloat.ltb w (of_int 1) = true -> is_zero (of_int 1 - w)%py = false.
Proof.
  intros Hlt. destruct (is_zero (of_int 1 - w)%py) eqn:Hz; [exfalso|reflexivity].
  apply b64_is_zero_spec in Hz. cbn [sub of_int b64_arith] in Hz, Hlt.
  rewrite sub_spec in Hz. rewrite ltb_spec in Hlt.
  replace (Prim2SF (float_of_Z 1)) with (S754_finite false 4503599627370496 (-52)) in Hz, Hlt
    by (vm_compute; reflexivity).
  pose proof (Prim2SF_valid w) as Hv.
  destruct (Prim2SF w) as [s|s| |s m e]; try (destruct Hz as [s' Hz]; discriminate Hz).
  cbn [valid_binary] in Hv. unfold bounded, canonical_mantissa in Hv.
  apply andb_true_iff in Hv as [Hcan _]. apply Z.eqb_eq in Hcan.
  rewrite fexp64_unfold in Hcan.
  pose proof (digits2_pos_bound m) as Hm.
  unfold SF64sub, SFsub in Hz. cbv zeta in Hz.
  assert (Hez : (-1074 <= Z.min (-52) e)%Z) by lia.
  rewrite !shl_align_value in Hz by lia.
  set (D := (cond_Zopp false (4503599627370496 * 2 ^ (-52 - Z.min (-52) e))
             - cond_Zopp s (Zpos m * 2 ^ (e - Z.min (-52) e)))%Z) in Hz.
  assert (HD : (0 < D)%Z).
  { unfold D. destruct s; cbn [cond_Zopp].
    - assert (Hp : (0 < 2 ^ (-52 - Z.min (-52) e))%Z) by (apply Z.pow_pos_nonneg; lia).
      assert (Hq : (0 < Zpos m * 2 ^ (e - Z.min (-52) e))%Z).
      { apply Z.mul_pos_pos; [reflexivity|apply Z.pow_pos_nonneg; lia]. }
      revert Hp Hq.
      generalize (2 ^ (-52 - Z.min (-52) e))%Z (Zpos m * 2 ^ (e - Z.min (-52) e))%Z.
      intros; lia.
    - unfold SFltb, SFcompare in Hlt.
      destruct (e ?= -52)%Z eqn:He; try discriminate Hlt.
      + apply Z.compare_eq in He. subst e.
        replace (Z.min (-52) (-52)) with (-52)%Z by reflexivity.
        replace (-52 - -52)%Z with 0%Z by reflexivity.
        rewrite Z.pow_0_r.
        destruct (Pos.compare_cont Eq m 4503599627370496) eqn:Hc; try discriminate Hlt.
        assert (Hc' : Pos.lt m 4503599627370496) by exact Hc.
        apply Pos2Z.pos_lt_pos in Hc'. lia.
      + change (e < -52)%Z in He.
        replace (Z.min (-52) e) with e by lia.
        replace (e - e)%Z with 0%Z by lia.
        rewrite Z.pow_0_r.
        change 4503599627370496%Z with (2 ^ 52)%Z.
        rewrite <- Z.pow_add_r by lia.
        replace (52 + (-52 - e))%Z with (- e)%Z by lia.
        assert (Hpow : (2 ^ Zpos (digits2_pos m) <= 2 ^ (- e))%Z)
          by (apply Z.pow_le_mono_r; lia).
        revert Hm Hpow.
        generalize (2 ^ Zpos (digits2_pos m))%Z (2 ^ (- e))%Z.
        intros; lia. }
  destruct D as [|d|d]; try lia.
  cbn [binary_normalize] in Hz.
  exact (binary_round_nonzero false d _ Hez Hz).
Qed.





End Binary64.

(** * The calculator *)

(** C10: the presence check of [calculate_basket_impact] is by truth value,
    so the empty dict is treated exactly like [None]: the function returns
    0.0 for it, for every [prev_fix] and weight table, instead of raising a
    [KeyError]; the engine as a whole cannot tell the two apart either. *)
Theorem empty_snapshot_is_absent {T : Type} {A : Arith T}
    (W : Weights T) (prev_close prev_fix : T) (ccf : Z) :
  calculate_basket_impact W prev_fix (Some ∅) = Ok (lit 0.0) /\
  calculate_basket_impact W prev_fix (Some ∅) = calculate_basket_impact W prev_fix None /\
  calculation_engine W prev_close prev_fix (Some ∅) ccf =
    calculation_engine W prev_close prev_fix None ccf.
Proof.
  assert (Hb : calculate_basket_impact W prev_fix (Some ∅) = Ok (lit 0.0)).
  { apply truthy_false_basket, truthy_empty. }
  split; [|split].
  - exact Hb.
  - rewrite Hb, basket_absent. reflexivity.
  - unfold calculation_engine. rewrite Hb, basket_absent. reflexivity.
Qed.

(** C3: whenever the basket component is computed, the engine returns with
    the gap component [(prev_close - prev_fix) * 10000]; the gap enters the
    total and the predicted fix as it is, with weight one and no damping
    factor; and it is the same for every snapshot and every [ccf_pips]. *)
Theorem gap_component_full_weight {T : Type} {A : Arith T}
    (W : Weights T) (prev_close prev_fix : T)
    (market_data : option (gmap string (Quote T))) (ccf : Z) (b : T) :
  is_zero (of_int 10000 : T) = false ->
  calculate_basket_impact W prev_fix market_data = Ok b ->
  exists c,
    calculation_engine W prev_close prev_fix market_data ccf = Ok c /\
    gap_pips c = ((prev_close - prev_fix) * of_int 10000)%py /\
    total_change_pips c = (gap_pips c + b + of_int ccf)%py /\
    predicted_fix c = (prev_fix + quot (gap_pips c + b + of_int ccf) (of_int 10000))%py /\
    forall market_data' ccf' c',
      calculation_engine W prev_close prev_fix market_data' ccf' = Ok c' ->
      gap_pips c' = gap_pips c.
Proof.
  intros H10 Hb. exists (calc_of prev_close prev_fix b ccf).
  split; [apply (engine_returns H10), Hb|].
  split; [reflexivity|]. split; [reflexivity|]. split; [reflexivity|].
  intros market_data' ccf' c' Hrun'.
  apply engine_inv in Hrun' as (b' & _ & ->). reflexivity.
Qed.

Lemma gap_component_full_weight_witness :
  exists c : Calc float,
    calculation_engine WEIGHTS (lit 6.9850) (lit 6.9820) None (-10) = Ok c /\
    gap_pips c = ((lit 6.9850 - lit 6.9820) * of_int 10000)%py /\
    total_change_pips c = (gap_pips c + lit 0.0 + of_int (-10))%py /\
    predicted_fix c =
      (lit 6.9820 + quot (gap_pips c + lit 0.0 + of_int (-10)) (of_int 10000))%py /\
    forall market_data' ccf' c',
      calculation_engine WEIGHTS (lit 6.9850) (lit 6.9820) market_data' ccf' = Ok c' ->
      gap_pips c' = gap_pips c.
Proof.
  apply (gap_component_full_weight WEIGHTS (lit 6.9850) (lit 6.9820) None (-10) (lit 0.0)).
  - exact b64_ten_thousand_nonzero.
  - apply basket_absent.
Defined.



(** * The extractor and the page *)

(** C4: [get_market_data] returns [None] or a snapshot of all four pairs,
    never a partial one; it returns [None] when the download raises, when
    the table has fewer than two rows and when a symbol of the snapshot is
    missing from it.  With [None] the basket component is 0.0, the engine
    still returns a complete prediction from the gap and [ccf_pips] alone,
    and the page is produced, with the neutral-basket warning. *)
Theorem fetch_failure_neutral_basket {T : Type} {A : Arith T}
    (W : Weights T) (yf_download : list string -> result (DataFrame T))
    (prev_close prev_fix : T) (ccf : Z) :
  is_zero (of_int 10000 : T) = false ->
  (fst (get_market_data yf_download) = None \/
   exists p l, fst (get_market_data yf_download) = Some (snapshot_from p l)) /\
  (forall e, yf_download tickers_values = Raise e ->
     fst (get_market_data yf_download) = None) /\
  (forall df, yf_download tickers_values = Ok df -> (length (rows df) < 2)%nat ->
     fst (get_market_data yf_download) = None) /\
  (forall df t, yf_download tickers_values = Ok df ->
     t ∈ snapshot_symbols -> t ∉ columns df ->
     fst (get_market_data yf_download) = None) /\
  calculate_basket_impact W prev_fix None = Ok (lit 0.0) /\
  (exists c,
     calculation_engine W prev_close prev_fix None ccf = Ok c /\
     basket_pips c = lit 0.0 /\
     gap_pips c = ((prev_close - prev_fix) * of_int 10000)%py /\
     total_change_pips c = (gap_pips c + lit 0.0 + of_int ccf)%py /\
     predicted_fix c = (prev_fix + quot (total_change_pips c) (of_int 10000))%py /\
     theoretical_fix c = (predicted_fix c - quot (of_int ccf) (of_int 10000))%py) /\
  (fst (get_market_data yf_download) = None ->
   exists events,
     app W yf_download prev_close prev_fix ccf = Ok events /\
     In (st_warning NeutralBasket) events /\
     In (st_box "FINAL PREDICTION (With CCF)"
           (predicted_fix (calc_of prev_close prev_fix (lit 0.0) ccf))) events).
Proof.
  intros H10.
  assert (Hcase : forall P : Prop,
            (forall d, try_market_data yf_download = Ok d -> P) ->
            fst (get_market_data yf_download) = None \/ P).
  { intros P HP. unfold get_market_data.
    destruct (try_market_data yf_download) as [d|e]; cbn [fst].
    - right. apply (HP d). reflexivity.
    - left. reflexivity. }
  repeat apply conj.
  - apply Hcase. intros d Hd.
    destruct (try_market_data_inv _ _ Hd) as (df & pre & p & l & _ & _ & _ & ->).
    exists p, l. unfold get_market_data. rewrite Hd. reflexivity.
  - intros e He. unfold get_market_data, try_market_data. rewrite He. reflexivity.
  - intros df Hdl Hshort.
    destruct (Hcase False) as [Hn|[]]; [|exact Hn]. intros d Hd.
    apply try_market_data_inv in Hd as (df' & pre & p & l & Hdl' & Hrows & _).
    rewrite Hdl in Hdl'. injection Hdl' as <-.
    rewrite Hrows, length_app in Hshort. cbn [length] in Hshort. lia.
  - intros df t Hdl Ht Hmiss.
    destruct (Hcase False) as [Hn|[]]; [|exact Hn]. intros d Hd.
    apply try_market_data_inv in Hd as (df' & pre & p & l & Hdl' & _ & Hcols & _).
    rewrite Hdl in Hdl'. injection Hdl' as <-.
    rewrite Forall_forall in Hcols. apply Hmiss, Hcols, Ht.
  - apply basket_absent.
  - exists (calc_of prev_close prev_fix (lit 0.0) ccf).
    split; [apply (engine_returns H10), basket_absent|]. repeat split.
  - apply app_absent, H10.
Qed.

Lemma fetch_failure_neutral_basket_witness :
  fst (get_market_data (@feed_down float)) = None /\
  exists events,
    app WEIGHTS feed_down (lit 6.9850) (lit 6.9820) (-10) = Ok events /\
    In (st_warning NeutralBasket) events /\
    In (st_box "FINAL PREDICTION (With CCF)"
          (predicted_fix (calc_of (lit 6.9850) (lit 6.9820) (lit 0.0) (-10)))) events.
Proof.
  split; [reflexivity|].
  apply (fetch_failure_neutral_basket WEIGHTS feed_down (lit 6.9850) (lit 6.9820) (-10)).
  - exact b64_ten_thousand_nonzero.
  - reflexivity.
Defined.

(** C5: a fetch succeeds when the download returns a table of at least two
    rows that has the four symbols EURUSD=X, JPY=X, GBPUSD=X and AUDUSD=X:
    [get_market_data] then returns the snapshot built from the last two rows
    of the table, and reports no error.  And whenever [get_market_data]
    returns a snapshot, the download returned a table of at least two rows;
    the snapshot has exactly the four keys EURUSD, USDJPY, GBPUSD and
    AUDUSD; each entry has the latest close as [rate] and
    [(latest - prior) / prior], from the last two rows, as [chg]; the symbol
    of USDCNY is among those downloaded, and USDCNY is not in the
    snapshot. *)
Theorem snapshot_on_successful_fetch {T : Type} {A : Arith T}
    (yf_download : list string -> result (DataFrame T)) :
  (forall df pre p l,
     yf_download tickers_values = Ok df ->
     rows df = pre ++ [p; l] ->
     Forall (fun t => t ∈ columns df) snapshot_symbols ->
     get_market_data yf_download = (Some (snapshot_from p l), [])) /\
  (forall data : gmap string (Quote T),
     fst (get_market_data yf_download) = Some data ->
     exists df pre p l,
       yf_download tickers_values = Ok df /\
       rows df = pre ++ [p; l] /\
       get_market_data yf_download = (Some data, []) /\
       dom data = ({[ "EURUSD"; "USDJPY"; "GBPUSD"; "AUDUSD" ]} : gset string) /\
       data !! "EURUSD" =
         Some {| rate := l "EURUSD=X";
                 chg := quot (l "EURUSD=X" - p "EURUSD=X")%py (p "EURUSD=X") |} /\
       data !! "USDJPY" =
         Some {| rate := l "JPY=X";
                 chg := quot (l "JPY=X" - p "JPY=X")%py (p "JPY=X") |} /\
       data !! "GBPUSD" =
         Some {| rate := l "GBPUSD=X";
                 chg := quot (l "GBPUSD=X" - p "GBPUSD=X")%py (p "GBPUSD=X") |} /\
       data !! "AUDUSD" =
         Some {| rate := l "AUDUSD=X";
                 chg := quot (l "AUDUSD=X" - p "AUDUSD=X")%py (p "AUDUSD=X") |} /\
       In "CNY=X" tickers_values /\
       data !! "USDCNY" = None).
Proof.
  split.
  - intros df pre p l Hdl Hrows Hcols. unfold get_market_data.
    rewrite (try_market_data_Ok _ _ _ _ _ Hdl Hrows Hcols). reflexivity.
  - intros data. unfold get_market_data.
    destruct (try_market_data yf_download) as [d|e] eqn:Hd; cbn [fst]; [|discriminate].
    intros [= <-].
    apply try_market_data_inv in Hd as (df & pre & p & l & Hdl & Hrows & _ & ->).
    exists df, pre, p, l.
    split; [exact Hdl|]. split; [exact Hrows|]. split; [reflexivity|].
    split.
    { unfold snapshot_from. rewrite !dom_insert_L, dom_empty_L. set_solver. }
    unfold snapshot_from, quote_from.
    repeat split; try (simplify_map_eq; reflexivity).
    unfold tickers_values, tickers. cbn. tauto.
Qed.

Lemma snapshot_on_successful_fetch_witness :
  let p : string -> float := fun _ => lit 1.00 in
  let l : string -> float :=
    fun t => if String.eqb t "EURUSD=X" then lit 0.97 else lit 1.00 in
  let five_days : list string -> result (DataFrame float) :=
    fun symbols => Ok {| columns := list_to_set symbols; rows := [l; p; l; p; l] |} in
  get_market_data five_days = (Some (snapshot_from p l), []) /\
  snapshot_from p l !! "EURUSD" =
    Some {| rate := lit 0.97; chg := quot (lit 0.97 - lit 1.00)%py (lit 1.00) |} /\
  snapshot_from p l !! "USDCNY" = None.
Proof.
  intros p l five_days.
  split; [|split; reflexivity].
  apply (proj1 (snapshot_on_successful_fetch five_days)
           {| columns := list_to_set tickers_values; rows := [l; p; l; p; l] |}
           [l; p; l] p l); try reflexivity.
  unfold snapshot_symbols. repeat constructor; vm_compute; reflexivity.
Defined.

(** C9: on a completed run, the high-volatility warning is on the page
    exactly when [abs(predicted_fix - prev_close) > 0.0500], where
    [predicted_fix] is the engine's final value, the one that includes
    [ccf_pips]. *)
Theorem volatility_flag_on_predicted_fix {T : Type} {A : Arith T}
    (W : Weights T) (yf_download : list string -> result (DataFrame T))
    (prev_close prev_fix : T) (ccf : Z) (events : list (ui T)) :
  app W yf_download prev_close prev_fix ccf = Ok events ->
  exists c,
    calculation_engine W prev_close prev_fix (fst (get_market_data yf_download)) ccf = Ok c /\
    predicted_fix c =
      (prev_fix + quot (gap_pips c + basket_pips c + of_int ccf) (of_int 10000))%py /\
    (In (st_warning HighVolatility) events <->
     gtb (absv (predicted_fix c - prev_close)%py) (lit 0.0500) = true).
Proof.
  intros Hrun.
  apply app_inv in Hrun as (moves & c & Hc & Hmoves & ->).
  exists c. split; [exact Hc|]. split.
  { apply engine_inv in Hc as (b & _ & ->). reflexivity. }
  pose proof (feed_no_alert yf_download) as Hfeed.
  rewrite List.Forall_forall in Hfeed, Hmoves.
  rewrite !in_app_iff. split.
  - intros [Hin|[Hin|[Hin|Hin]]].
    + exfalso. apply (Hfeed _ Hin). reflexivity.
    + exfalso. apply (Hmoves _ Hin). reflexivity.
    + cbn in Hin. destruct Hin as [Hin|[Hin|[Hin|[]]]]; discriminate Hin.
    + destruct (gtb _ _); [reflexivity|destruct Hin].
  - intros ->. right. right. right. left. reflexivity.
Qed.

Lemma volatility_flag_on_predicted_fix_witness :
  exists c : Calc float,
    calculation_engine WEIGHTS (lit 7.0000) (lit 7.0000)
      (fst (get_market_data eur_minus_3pct)) 100 = Ok c /\
    (In (st_warning HighVolatility)
        (page_of (app WEIGHTS eur_minus_3pct (lit 7.0000) (lit 7.0000) 100)) <->
     gtb (absv (predicted_fix c - lit 7.0000)%py) (lit 0.0500) = true) /\
    gtb (absv (predicted_fix c - lit 7.0000)%py) (lit 0.0500) = true /\
    gtb (absv (theoretical_fix c - lit 7.0000)%py) (lit 0.0500) = false.
Proof.
  destruct (volatility_flag_on_predicted_fix WEIGHTS eur_minus_3pct
              (lit 7.0000) (lit 7.0000) 100
              (page_of (app WEIGHTS eur_minus_3pct (lit 7.0000) (lit 7.0000) 100)))
    as (c & Hc & _ & Hiff).
  { vm_compute. reflexivity. }
  exists c. split; [exact Hc|]. split; [exact Hiff|].
  vm_compute in Hc. injection Hc as <-.
  split; vm_compute; reflexivity.
Defined.

(** * The formulas *)

Section Formulas.
Local Open Scope Q_scope.



(** C7: [calculate_basket_impact] divides by [1 - W[USD]] only: it can
    raise [ZeroDivisionError] for no other reason than that number being
    zero.  With [W[USD] < 1] it is not zero, and no prior fixing and no
    snapshot makes the function raise [ZeroDivisionError]: so it is in
    exact arithmetic and in binary64, for every such table and for the
    configured one, where [W[USD]] is 0.198. *)
Theorem usd_weight_denominator (W : Weights Q) (prev_fix : Q)
    (market_data : option (gmap string (Quote Q))) :
  w_USD W < 1 ->
  (~ 1 - w_USD W == 0) /\
  calculate_basket_impact W prev_fix market_data <> Raise ZeroDivisionError /\
  (forall (W' : Weights Q) prev_fix' market_data',
     calculate_basket_impact W' prev_fix' market_data' = Raise ZeroDivisionError ->
     1 - w_USD W' == 0) /\
  (forall (W' : Weights float) prev_fix' market_data',
     calculate_basket_impact W' prev_fix' market_data' = Raise ZeroDivisionError ->
     is_zero (of_int 1 - w_USD W')%py = true) /\
  (forall (W' : Weights float) prev_fix' market_data',
     gtb (of_int 1) (w_USD W') = true ->
     is_zero (of_int 1 - w_USD W')%py = false /\
     calculate_basket_impact W' prev_fix' market_data' <> Raise ZeroDivisionError) /\
  w_USD (WEIGHTS : Weights Q) == 0.198 /\
  w_USD (WEIGHTS : Weights Q) < 1 /\
  gtb (of_int 1) (w_USD (WEIGHTS : Weights float)) = true.
Proof.
  intros Hw. split; [lra|]. split; [|split; [|split; [|split; [|split; [|split]]]]].
  - apply basket_no_zero_division, Q_denominator. lra.
  - intros W' prev_fix' market_data' Hr.
    apply basket_zero_division, Q_is_zero_true in Hr. exact Hr.
  - intros W' prev_fix' market_data' Hr. apply basket_zero_division in Hr. exact Hr.
  - intros W' prev_fix' market_data' Hw'.
    pose proof (b64_denominator _ Hw') as Hden.
    split; [exact Hden|]. apply basket_no_zero_division, Hden.
  - reflexivity.
  - reflexivity.
  - vm_compute. reflexivity.
Qed.

Lemma usd_weight_denominator_witness :
  let d := snapshot_of {| rate := 1.0850; chg := -0.005 |} {| rate := 151.20; chg := 0.003 |}
             {| rate := 1.2640; chg := -0.002 |} {| rate := 0.6540; chg := 0.004 |} in
  (~ 1 - w_USD (WEIGHTS : Weights Q) == 0) /\
  calculate_basket_impact WEIGHTS 6.9820 (Some d) <> Raise ZeroDivisionError.
Proof.
  intros d.
  assert (Hw : w_USD (WEIGHTS : Weights Q) < 1) by reflexivity.
  destruct (usd_weight_denominator WEIGHTS 6.9820 (Some d) Hw) as (Hden & Hnz & _).
  exact (conj Hden Hnz).
Defined.

(** C8: with the configured weights, [prev_fix = 7.0000], EURUSD down 1%
    and the other pairs unchanged, the basket component is
    [(0.01 * 0.180/0.802) * 7.0000 * 10000], which lies between 157.10 and
    157.11 pips; evaluated in binary64 it lies between the same bounds. *)
Theorem sign_test_eur_weakens :
  w_EUR (WEIGHTS : Weights Q) = 0.180 /\ w_USD (WEIGHTS : Weights Q) = 0.198 /\
  (forall r1 r2 r3 r4 : Q,
     exists basket_pips,
       calculate_basket_impact WEIGHTS 7.0000
         (Some (snapshot_of {| rate := r1; chg := -0.01 |} {| rate := r2; chg := 0 |}
                            {| rate := r3; chg := 0 |} {| rate := r4; chg := 0 |}))
         = Ok basket_pips /\
       basket_pips == (0.01 * 0.180 / 0.802) * 7.0000 * 10000 /\
       157.10 < basket_pips /\ basket_pips < 157.11) /\
  (forall r1 r2 r3 r4 : float,
     exists basket_pips,
       calculate_basket_impact WEIGHTS (lit 7.0000)
         (Some (snapshot_of {| rate := r1; chg := lit (-0.01) |} {| rate := r2; chg := lit 0 |}
                            {| rate := r3; chg := lit 0 |} {| rate := r4; chg := lit 0 |}))
         = Ok basket_pips /\
       gtb basket_pips (lit 157.10) = true /\ gtb (lit 157.11) basket_pips = true).
Proof.
  split; [reflexivity|]. split; [reflexivity|]. split.
  - intros r1 r2 r3 r4. eexists. split.
    + rewrite basket_snapshot_of. reflexivity.
    + cbn [chg]. vm_compute. repeat split; discriminate.
  - intros r1 r2 r3 r4. eexists. split.
    + rewrite basket_snapshot_of. vm_compute. reflexivity.
    + split; reflexivity.
Qed.


End Formulas.


(** * Further properties *)

(** ** Outcomes of the basket model *)

Section BasketOutcomes.
Context {T : Type} {A : Arith T}.
Local Open Scope py_scope.

Implicit Types (W : Weights T) (d : gmap string (Quote T)).

(** X1: on a snapshot that is not empty, [calculate_basket_impact] raises
    [KeyError] for the first pair missing in the order EURUSD, USDJPY,
    GBPUSD, except that with EURUSD present a zero [1 - W[USD]] comes first
    and raises [ZeroDivisionError]; it raises nothing else, and it returns
    exactly when the three pairs are present and [1 - W[USD]] is not zero. *)
Theorem basket_errors_in_order W (prev_fix : T) d :
  truthy (Some d) = true ->
  (d !! "EURUSD" = None ->
   calculate_basket_impact W prev_fix (Some d) = Raise (KeyError "EURUSD")) /\
  (is_Some (d !! "EURUSD") -> is_zero (of_int 1 - w_USD W) = true ->
   calculate_basket_impact W prev_fix (Some d) = Raise ZeroDivisionError) /\
  (is_Some (d !! "EURUSD") -> is_zero (of_int 1 - w_USD W) = false ->
   d !! "USDJPY" = None ->
   calculate_basket_impact W prev_fix (Some d) = Raise (KeyError "USDJPY")) /\
  (is_Some (d !! "EURUSD") -> is_zero (of_int 1 - w_USD W) = false ->
   is_Some (d !! "USDJPY") -> d !! "GBPUSD" = None ->
   calculate_basket_impact W prev_fix (Some d) = Raise (KeyError "GBPUSD")) /\
  ((exists b, calculate_basket_impact W prev_fix (Some d) = Ok b) <->
   is_Some (d !! "EURUSD") /\ is_Some (d !! "USDJPY") /\ is_Some (d !! "GBPUSD") /\
   is_zero (of_int 1 - w_USD W) = false).
Proof.
  intros Ht.
  assert (Hrun : calculate_basket_impact W prev_fix (Some d) =
    match d !! "EURUSD" with
    | None => Raise (KeyError "EURUSD")
    | Some eur =>
        if is_zero (of_int 1 - w_USD W) then Raise ZeroDivisionError
        else match d !! "USDJPY" with
             | None => Raise (KeyError "USDJPY")
             | Some jpy =>
                 match d !! "GBPUSD" with
                 | None => Raise (KeyError "GBPUSD")
                 | Some gbp => Ok (impact_of W prev_fix (chg eur) (chg jpy) (chg gbp))
                 end
             end
    end).
  { unfold calculate_basket_impact, getitem, truediv, impact_of. rewrite Ht.
    cbn [negb]. unfold default. cbn [from_option id].
    destruct (d !! "EURUSD") as [eur|]; [|reflexivity]. rewrite bind_Ok.
    destruct (is_zero (of_int 1 - w_USD W)); [reflexivity|]. rewrite !bind_Ok.
    destruct (d !! "USDJPY") as [jpy|]; [|reflexivity]. rewrite !bind_Ok.
    destruct (d !! "GBPUSD") as [gbp|]; reflexivity. }
  rewrite Hrun. clear Hrun.
  repeat apply conj.
  - intros ->. reflexivity.
  - intros [eur ->] ->. reflexivity.
  - intros [eur ->] -> ->. reflexivity.
  - intros [eur ->] -> [jpy ->] ->. reflexivity.
  - intros [b Hb].
    destruct (d !! "EURUSD"); [|discriminate Hb].
    destruct (is_zero (of_int 1 - w_USD W)); [discriminate Hb|].
    destruct (d !! "USDJPY"); [|discriminate Hb].
    destruct (d !! "GBPUSD"); [|discriminate Hb]. eauto.
  - intros ([eur ->] & [jpy ->] & [gbp ->] & ->). eauto.
Qed.

(** X2: the basket impact reads the snapshot at the [chg] of the three pairs
    and nowhere else: two snapshots in which EURUSD, USDJPY and GBPUSD have
    the same changes give the same result, whatever their rates and their
    other entries. *)
Theorem basket_reads_three_changes W (prev_fix : T) d d' (eur jpy gbp eur' jpy' gbp' : Quote T) :
  d !! "EURUSD" = Some eur -> d !! "USDJPY" = Some jpy -> d !! "GBPUSD" = Some gbp ->
  d' !! "EURUSD" = Some eur' -> d' !! "USDJPY" = Some jpy' -> d' !! "GBPUSD" = Some gbp' ->
  chg eur = chg eur' -> chg jpy = chg jpy' -> chg gbp = chg gbp' ->
  calculate_basket_impact W prev_fix (Some d) = calculate_basket_impact W prev_fix (Some d').
Proof.
  intros He Hj Hg He' Hj' Hg' Hce Hcj Hcg.
  rewrite (basket_present _ _ _ _ _ _ He Hj Hg), (basket_present _ _ _ _ _ _ He' Hj' Hg').
  rewrite Hce, Hcj, Hcg. reflexivity.
Qed.

End BasketOutcomes.

Lemma basket_errors_in_order_witness :
  let d : gmap string (Quote Q) := {[ "USDJPY" := {| rate := 150%Q; chg := 0.01%Q |} ]} in
  truthy (Some d) = true /\
  calculate_basket_impact WEIGHTS 7%Q (Some d) = Raise (KeyError "EURUSD").
Proof.
  intros d.
  assert (Ht : truthy (Some d) = true) by (vm_compute; reflexivity).
  split; [exact Ht|].
  destruct (basket_errors_in_order WEIGHTS 7%Q d Ht) as (Hfirst & _).
  apply Hfirst. vm_compute. reflexivity.
Defined.

Lemma basket_reads_three_changes_witness :
  let eur := {| rate := 1.08%Q; chg := (-0.01)%Q |} in
  let jpy := {| rate := 150%Q; chg := 0.002%Q |} in
  let gbp := {| rate := 1.27%Q; chg := 0.004%Q |} in
  let aud := {| rate := 0.66%Q; chg := 0.05%Q |} in
  let eur' := {| rate := 2%Q; chg := (-0.01)%Q |} in
  let jpy' := {| rate := 3%Q; chg := 0.002%Q |} in
  let gbp' := {| rate := 4%Q; chg := 0.004%Q |} in
  calculate_basket_impact WEIGHTS 7%Q (Some (snapshot_of eur jpy gbp aud)) =
  calculate_basket_impact WEIGHTS 7%Q
    (Some (<["USDCNY" := aud]> (<["GBPUSD" := gbp']> (<["USDJPY" := jpy']>
       {[ "EURUSD" := eur' ]})))).
Proof.
  intros eur jpy gbp aud eur' jpy' gbp'.
  apply (basket_reads_three_changes WEIGHTS 7%Q
           (snapshot_of eur jpy gbp aud)
           (<["USDCNY" := aud]> (<["GBPUSD" := gbp']> (<["USDJPY" := jpy']>
              {[ "EURUSD" := eur' ]})))
           eur jpy gbp eur' jpy' gbp'); vm_compute; reflexivity.
Defined.

(** ** Outcomes of the extractor *)

Section ExtractorOutcomes.
Context {T : Type} {A : Arith T}.
Local Open Scope py_scope.

Implicit Types (df : DataFrame T) (yf_download : list string -> result (DataFrame T)).

(** On a table of at least two rows the outcome is decided by the first
    missing symbol. *)
Lemma get_market_data_two_rows yf_download df pre p l :
  yf_download tickers_values = Ok df ->
  rows df = pre ++ [p; l] ->
  get_market_data yf_download =
    match first_missing (columns df) with
    | Some t => (None, [st_error (KeyError t)])
    | None => (Some (snapshot_from p l), [])
    end.
Proof.
  intros Hdl Hrows. unfold get_market_data, try_market_data.
  rewrite Hdl, bind_Ok, (iloc_last _ _ _ _ Hrows), bind_Ok,
    (iloc_prior _ _ _ _ Hrows), bind_Ok.
  cbv zeta. unfold first_missing, snapshot_symbols. cbn [find].
  rewrite (quote_entry_row _ _ _ "EURUSD" "EURUSD=X") by reflexivity.
  destruct (decide ("EURUSD=X" ∈ columns df)) as [Hin|Hout];
    [rewrite (bool_decide_eq_true_2 _ Hin), bind_Ok
    |rewrite (bool_decide_eq_false_2 _ Hout); reflexivity].
  clear Hin. rewrite (quote_entry_row _ _ _ "USDJPY" "JPY=X") by reflexivity.
  destruct (decide ("JPY=X" ∈ columns df)) as [Hin|Hout];
    [rewrite (bool_decide_eq_true_2 _ Hin), bind_Ok
    |rewrite (bool_decide_eq_false_2 _ Hout); reflexivity].
  clear Hin. rewrite (quote_entry_row _ _ _ "GBPUSD" "GBPUSD=X") by reflexivity.
  destruct (decide ("GBPUSD=X" ∈ columns df)) as [Hin|Hout];
    [rewrite (bool_decide_eq_true_2 _ Hin), bind_Ok
    |rewrite (bool_decide_eq_false_2 _ Hout); reflexivity].
  clear Hin. rewrite (quote_entry_row _ _ _ "AUDUSD" "AUDUSD=X") by reflexivity.
  destruct (decide ("AUDUSD=X" ∈ columns df)) as [Hin|Hout];
    [rewrite (bool_decide_eq_true_2 _ Hin)
    |rewrite (bool_decide_eq_false_2 _ Hout)]; reflexivity.
Qed.

(** X3: what [get_market_data] reports when it fails.  An exception of the
    download is reported as it is; a table of fewer than two rows is
    reported as [IndexError]; on a longer table the report is the
    [KeyError] of the first missing symbol among EURUSD=X, JPY=X, GBPUSD=X,
    AUDUSD=X, and with none missing there is no report and the snapshot is
    built from the last two rows. *)
Theorem extractor_reports yf_download :
  (forall e, yf_download tickers_values = Raise e ->
     get_market_data yf_download = (None, [st_error e])) /\
  (forall df, yf_download tickers_values = Ok df -> (length (rows df) < 2)%nat ->
     get_market_data yf_download = (None, [st_error IndexError])) /\
  (forall df pre p l, yf_download tickers_values = Ok df -> rows df = pre ++ [p; l] ->
     get_market_data yf_download =
       match first_missing (columns df) with
       | Some t => (None, [st_error (KeyError t)])
       | None => (Some (snapshot_from p l), [])
       end).
Proof.
  split; [|split].
  - intros e He. unfold get_market_data, try_market_data. rewrite He. reflexivity.
  - intros df Hdl Hshort. unfold get_market_data, try_market_data, iloc.
    rewrite Hdl, bind_Ok.
    destruct (rows df) as [|r0 [|r1 rs]]; cbn [length] in *; [reflexivity|reflexivity|lia].
  - apply get_market_data_two_rows.
Qed.

(** X4: the snapshot is a function of the last two rows at the four symbols:
    rows before them, and columns other than the four (CNY=X among them),
    never change what [get_market_data] returns. *)
Theorem extractor_reads_last_two_rows yf_download yf_download' df df' pre pre' p l p' l' :
  yf_download tickers_values = Ok df -> rows df = pre ++ [p; l] ->
  yf_download' tickers_values = Ok df' -> rows df' = pre' ++ [p'; l'] ->
  Forall (fun t => (t ∈ columns df <-> t ∈ columns df') /\ p t = p' t /\ l t = l' t)
    snapshot_symbols ->
  get_market_data yf_download = get_market_data yf_download'.
Proof.
  intros Hdl Hrows Hdl' Hrows' Hsame.
  rewrite (get_market_data_two_rows _ _ _ _ _ Hdl Hrows),
    (get_market_data_two_rows _ _ _ _ _ Hdl' Hrows').
  unfold snapshot_symbols in Hsame. rewrite !Forall_cons in Hsame.
  destruct Hsame as ((He & Hpe & Hle) & (Hj & Hpj & Hlj) & (Hg & Hpg & Hlg)
                     & (Ha & Hpa & Hla) & _).
  assert (Hfm : first_missing (columns df) = first_missing (columns df')).
  { unfold first_missing, snapshot_symbols. cbn [find].
    rewrite (bool_decide_ext _ _ He), (bool_decide_ext _ _ Hj),
      (bool_decide_ext _ _ Hg), (bool_decide_ext _ _ Ha). reflexivity. }
  rewrite Hfm. unfold snapshot_from, quote_from.
  rewrite Hpe, Hle, Hpj, Hlj, Hpg, Hlg, Hpa, Hla. reflexivity.
Qed.

End ExtractorOutcomes.

Lemma extractor_reads_last_two_rows_witness :
  let p : string -> Q := fun _ => 1%Q in
  let l : string -> Q := fun t => if String.eqb t "EURUSD=X" then 0.97%Q else 1%Q in
  let p' : string -> Q := fun t => if String.eqb t "CNY=X" then 7.1%Q else 1%Q in
  let older : list string -> result (DataFrame Q) :=
    fun symbols => Ok {| columns := list_to_set symbols; rows := [l; l; p'; l] |} in
  get_market_data (two_days p l) = get_market_data older.
Proof.
  intros p l p' older.
  apply (extractor_reads_last_two_rows (two_days p l) older
           {| columns := list_to_set tickers_values; rows := [p; l] |}
           {| columns := list_to_set tickers_values; rows := [l; l; p'; l] |}
           [] [l; l] p l p' l); try reflexivity.
  unfold snapshot_symbols. repeat constructor; reflexivity.
Defined.

(** ** The page in full *)

Lemma bind_Raise {X Y} (e : exn) (f : X -> result Y) : (x ← Raise e; f x) = Raise e.
Proof. reflexivity. Qed.

Section PageOutcomes.
Context {T : Type} {A : Arith T}.
Local Open Scope py_scope.

Implicit Types (W : Weights T) (yf_download : list string -> result (DataFrame T)).

Lemma basket_snapshot_from W prev_fix (p l : string -> T) :
  calculate_basket_impact W prev_fix (Some (snapshot_from p l)) =
    if is_zero (of_int 1 - w_USD W) then Raise ZeroDivisionError
    else Ok (impact_from W prev_fix p l).
Proof.
  apply (basket_present W prev_fix (snapshot_from p l)
           (quote_from p l "EURUSD=X") (quote_from p l "JPY=X") (quote_from p l "GBPUSD=X"));
    reflexivity.
Qed.

(** A run after a failed fetch. *)
Lemma app_after_failure W yf_download prev_close prev_fix ccf e :
  try_market_data yf_download = Raise e ->
  app W yf_download prev_close prev_fix ccf =
    (c ← calculation_engine W prev_close prev_fix None ccf;
     Ok (st_error e :: st_warning NeutralBasket :: prediction_page prev_close c)).
Proof.
  intros Hfail. unfold app, get_market_data. rewrite Hfail. reflexivity.
Qed.

(** A run after a successful fetch. *)
Lemma app_after_success W yf_download prev_close prev_fix ccf p l :
  try_market_data yf_download = Ok (snapshot_from p l) ->
  app W yf_download prev_close prev_fix ccf =
    (c ← calculation_engine W prev_close prev_fix (Some (snapshot_from p l)) ccf;
     Ok (moves_page p l ++ prediction_page prev_close c)).
Proof.
  intros Hok. unfold app, get_market_data. rewrite Hok. reflexivity.
Qed.

Lemma fetch_cases yf_download :
  (exists e, try_market_data yf_download = Raise e) \/
  (exists p l, try_market_data yf_download = Ok (snapshot_from p l)).
Proof.
  destruct (try_market_data yf_download) as [d|e] eqn:Hd; [right|left; eauto].
  destruct (try_market_data_inv _ _ Hd) as (df & pre & p & l & _ & _ & _ & ->). eauto.
Qed.

Hypothesis ten_thousand_nonzero : is_zero (of_int 10000 : T) = false.

(** X5: the page after a failed fetch, in full: the feed error, the
    neutral-basket warning, the two fixes computed with a basket of 0.0, the
    chart, and the alert if it is due; no metric is shown. *)
Theorem page_without_market_data W yf_download (prev_close prev_fix : T) (ccf : Z) :
  fst (get_market_data yf_download) = None ->
  exists e,
    get_market_data yf_download = (None, [st_error e]) /\
    app W yf_download prev_close prev_fix ccf =
      Ok (st_error e :: st_warning NeutralBasket ::
          prediction_page prev_close (calc_of prev_close prev_fix (lit 0.0) ccf)).
Proof.
  intros Hnone. destruct (fetch_cases yf_download) as [(e & He)|(p & l & Hok)].
  - exists e. split; [unfold get_market_data; rewrite He; reflexivity|].
    rewrite (app_after_failure _ _ _ _ _ _ He).
    rewrite (engine_returns ten_thousand_nonzero _ _ _ _ _ _ (basket_absent _ _)).
    reflexivity.
  - unfold get_market_data in Hnone. rewrite Hok in Hnone. discriminate Hnone.
Qed.

(** X6: the page after a successful fetch, in full, when [1 - W[USD]] is not
    zero: the four metrics with the latest close and the change of each
    pair, the two fixes computed with the basket impact of those changes,
    the chart, and the alert if it is due; no error and no warning of a
    neutral basket. *)
Theorem page_with_market_data W yf_download (prev_close prev_fix : T) (ccf : Z)
    (data : gmap string (Quote T)) :
  is_zero (of_int 1 - w_USD W) = false ->
  fst (get_market_data yf_download) = Some data ->
  exists p l,
    get_market_data yf_download = (Some (snapshot_from p l), []) /\
    app W yf_download prev_close prev_fix ccf =
      Ok (moves_page p l ++
          prediction_page prev_close
            (calc_of prev_close prev_fix (impact_from W prev_fix p l) ccf)).
Proof.
  intros Hden Hsome. destruct (fetch_cases yf_download) as [(e & He)|(p & l & Hok)].
  - unfold get_market_data in Hsome. rewrite He in Hsome. discriminate Hsome.
  - exists p, l. split; [unfold get_market_data; rewrite Hok; reflexivity|].
    rewrite (app_after_success _ _ _ _ _ _ _ Hok).
    assert (Hb : calculate_basket_impact W prev_fix (Some (snapshot_from p l)) =
                 Ok (impact_from W prev_fix p l)).
    { rewrite basket_snapshot_from, Hden. reflexivity. }
    rewrite (engine_returns ten_thousand_nonzero _ _ _ _ _ _ Hb). reflexivity.
Qed.

(** X7: a run returns a page whatever the download does, as long as
    [1 - W[USD]] is not zero; and whatever the weights, the only exception a
    run can raise is [ZeroDivisionError], which it raises exactly when the
    fetch succeeded and [1 - W[USD]] is zero. *)
Theorem run_aborts_only_on_zero_denominator W yf_download (prev_close prev_fix : T) (ccf : Z) :
  (is_zero (of_int 1 - w_USD W) = false ->
   exists events, app W yf_download prev_close prev_fix ccf = Ok events) /\
  (forall e, app W yf_download prev_close prev_fix ccf = Raise e <->
     e = ZeroDivisionError /\ is_zero (of_int 1 - w_USD W) = true /\
     is_Some (fst (get_market_data yf_download))).
Proof.
  destruct (fetch_cases yf_download) as [(e0 & He)|(p & l & Hok)].
  - assert (Hrun : app W yf_download prev_close prev_fix ccf =
        Ok (st_error e0 :: st_warning NeutralBasket ::
            prediction_page prev_close (calc_of prev_close prev_fix (lit 0.0) ccf))).
    { rewrite (app_after_failure _ _ _ _ _ _ He).
      rewrite (engine_returns ten_thousand_nonzero _ _ _ _ _ _ (basket_absent _ _)).
      reflexivity. }
    split; [eauto|]. intros e. rewrite Hrun. split; [discriminate|].
    unfold get_market_data. rewrite He. cbn [fst]. intros (_ & _ & [d Hd]). discriminate Hd.
  - rewrite (app_after_success _ _ _ _ _ _ _ Hok).
    unfold get_market_data. rewrite Hok. cbn [fst].
    destruct (is_zero (of_int 1 - w_USD W)) eqn:Hden.
    + rewrite (engine_raise _ _ _ _ _ ZeroDivisionError)
        by (rewrite basket_snapshot_from, Hden; reflexivity).
      rewrite bind_Raise. split; [discriminate|].
      intros e. split; [intros [= <-]; eauto|]. intros (-> & _ & _). reflexivity.
    + assert (Hb : calculate_basket_impact W prev_fix (Some (snapshot_from p l)) =
                   Ok (impact_from W prev_fix p l)).
      { rewrite basket_snapshot_from, Hden. reflexivity. }
      rewrite (engine_returns ten_thousand_nonzero _ _ _ _ _ _ Hb), bind_Ok.
      split; [eauto|]. intros e. split; [discriminate|]. intros (_ & Hf & _). discriminate Hf.
Qed.

End PageOutcomes.

Lemma page_without_market_data_witness :
  exists e,
    get_market_data (@feed_down float) = (None, [st_error e]) /\
    app WEIGHTS feed_down (lit 6.9850) (lit 6.9820) (-10) =
      Ok (st_error e :: st_warning NeutralBasket ::
          prediction_page (lit 6.9850) (calc_of (lit 6.9850) (lit 6.9820) (lit 0.0) (-10))).
Proof.
  apply (page_without_market_data b64_ten_thousand_nonzero WEIGHTS feed_down
           (lit 6.9850) (lit 6.9820) (-10)).
  reflexivity.
Defined.

Lemma page_with_market_data_witness :
  exists p l,
    get_market_data eur_minus_3pct = (Some (snapshot_from p l), []) /\
    app WEIGHTS eur_minus_3pct (lit 7.0000) (lit 7.0000) 100 =
      Ok (moves_page p l ++
          prediction_page (lit 7.0000)
            (calc_of (lit 7.0000) (lit 7.0000) (impact_from WEIGHTS (lit 7.0000) p l) 100)).
Proof.
  assert (Hden : is_zero (of_int 1 - w_USD (@WEIGHTS float _))%py = false)
    by (vm_compute; reflexivity).
  destruct (fetch_cases eur_minus_3pct) as [(e & He)|(p & l & Hok)].
  { vm_compute in He. discriminate He. }
  apply (page_with_market_data b64_ten_thousand_nonzero WEIGHTS eur_minus_3pct
           (lit 7.0000) (lit 7.0000) 100 (snapshot_from p l) Hden).
  unfold get_market_data. rewrite Hok. reflexivity.
Defined.

Lemma run_aborts_only_on_zero_denominator_witness :
  exists events, app WEIGHTS eur_minus_3pct (lit 7.0000) (lit 7.0000) 100 = Ok events.
Proof.
  apply (run_aborts_only_on_zero_denominator b64_ten_thousand_nonzero WEIGHTS eur_minus_3pct
           (lit 7.0000) (lit 7.0000) 100).
  vm_compute. reflexivity.
Defined.

(** ** Weights that are never read *)

Section UnusedWeights.
Context {T : Type} {A : Arith T}.
Local Open Scope py_scope.

(** X8: of the six weights only USD, EUR, JPY and GBP are read: two tables
    of weights that agree on these four give the same basket impact on every
    snapshot and the same run on every download, whatever their KRW and AUD
    entries. *)
Theorem krw_and_aud_weights_unused (W W' : Weights T)
    (yf_download : list string -> result (DataFrame T))
    (prev_close prev_fix : T) (ccf : Z) :
  w_USD W = w_USD W' -> w_EUR W = w_EUR W' -> w_JPY W = w_JPY W' -> w_GBP W = w_GBP W' ->
  (forall market_data,
     calculate_basket_impact W prev_fix market_data =
     calculate_basket_impact W' prev_fix market_data) /\
  app W yf_download prev_close prev_fix ccf = app W' yf_download prev_close prev_fix ccf.
Proof.
  intros Hu He Hj Hg.
  assert (Hbasket : forall market_data,
            calculate_basket_impact W prev_fix market_data =
            calculate_basket_impact W' prev_fix market_data).
  { intros market_data. unfold calculate_basket_impact. rewrite Hu, He, Hj, Hg. reflexivity. }
  split; [exact Hbasket|].
  unfold app. destruct (get_market_data yf_download) as [market_data feed].
  match goal with |- (_ ← ?m; _) = _ => destruct m as [moves|e] end; [|reflexivity].
  rewrite !bind_Ok. unfold calculation_engine. rewrite Hbasket. reflexivity.
Qed.

End UnusedWeights.

Lemma krw_and_aud_weights_unused_witness :
  let W' : Weights float :=
    {| w_USD := w_USD WEIGHTS; w_EUR := w_EUR WEIGHTS; w_JPY := w_JPY WEIGHTS;
       w_KRW := lit 0.5; w_GBP := w_GBP WEIGHTS; w_AUD := lit 0.0 |} in
  (forall market_data,
     calculate_basket_impact WEIGHTS (lit 7.0000) market_data =
     calculate_basket_impact W' (lit 7.0000) market_data) /\
  app WEIGHTS eur_minus_3pct (lit 7.0000) (lit 7.0000) 100 =
  app W' eur_minus_3pct (lit 7.0000) (lit 7.0000) 100.
Proof.
  intros W'.
  apply (krw_and_aud_weights_unused WEIGHTS W' eur_minus_3pct (lit 7.0000) (lit 7.0000) 100);
    reflexivity.
Defined.

(** ** Changes that are not numbers, in binary64 *)

Section NotANumber.

Lemma b64_is_nan_spec (x : float) : PrimFloat.is_nan x = true <-> Prim2SF x = S754_nan.
Proof.
  unfold PrimFloat.is_nan. rewrite FloatAxioms.eqb_spec. unfold SFeqb.
  destruct (Prim2SF x) as [s|s| |s m e] eqn:Hx.
  - rewrite SFcompare_refl by discriminate. split; discriminate.
  - rewrite SFcompare_refl by discriminate. split; discriminate.
  - split; reflexivity.
  - rewrite SFcompare_refl by discriminate. split; discriminate.
Qed.

Lemma b64_nan_add (x y : float) :
  PrimFloat.is_nan x = true \/ PrimFloat.is_nan y = true -> PrimFloat.is_nan (x + y) = true.
Proof.
  rewrite !b64_is_nan_spec, add_spec. intros [->| ->]; [reflexivity|].
  destruct (Prim2SF x) as [[|]|[|]| |]; reflexivity.
Qed.

Lemma b64_nan_sub (x y : float) :
  PrimFloat.is_nan x = true \/ PrimFloat.is_nan y = true -> PrimFloat.is_nan (x - y) = true.
Proof.
  rewrite !b64_is_nan_spec, sub_spec. intros [->| ->]; [reflexivity|].
  destruct (Prim2SF x) as [[|]|[|]| |]; reflexivity.
Qed.

Lemma b64_nan_mul (x y : float) :
  PrimFloat.is_nan x = true \/ PrimFloat.is_nan y = true -> PrimFloat.is_nan (x * y) = true.
Proof.
  rewrite !b64_is_nan_spec, mul_spec. intros [->| ->]; [reflexivity|].
  destruct (Prim2SF x) as [[|]|[|]| |]; reflexivity.
Qed.

Lemma b64_nan_div (x y : float) :
  PrimFloat.is_nan x = true \/ PrimFloat.is_nan y = true -> PrimFloat.is_nan (x / y) = true.
Proof.
  rewrite !b64_is_nan_spec, div_spec. intros [->| ->]; [reflexivity|].
  destruct (Prim2SF x) as [[|]|[|]| |]; reflexivity.
Qed.

Lemma b64_nan_not_greater (x y : float) :
  PrimFloat.is_nan x = true -> gtb (absv x) y = false.
Proof.
  rewrite b64_is_nan_spec. intros Hx. cbn [gtb absv b64_arith].
  rewrite ltb_spec, abs_spec, Hx. unfold SFltb.
  destruct (Prim2SF y) as [[|]|[|]| |]; reflexivity.
Qed.

(** A NaN among the three moves makes the basket impact a NaN. *)
Lemma b64_nan_impact (W : Weights float) (prev_fix e j g : float) :
  PrimFloat.is_nan e = true \/ PrimFloat.is_nan j = true \/ PrimFloat.is_nan g = true ->
  PrimFloat.is_nan (impact_of W prev_fix e j g) = true.
Proof.
  intros Hnan. unfold impact_of. cbn [add sub mul b64_arith].
  destruct Hnan as [Hn|[Hn|Hn]].
  - apply b64_nan_sub; left. apply b64_nan_add; left. apply b64_nan_sub; right.
    do 2 (apply b64_nan_mul; left). apply b64_nan_mul; left. exact Hn.
  - apply b64_nan_sub; left. apply b64_nan_add; right.
    do 2 (apply b64_nan_mul; left). apply b64_nan_mul; left. exact Hn.
  - apply b64_nan_sub; right.
    do 2 (apply b64_nan_mul; left). apply b64_nan_mul; left. exact Hn.
Qed.

(** X13: in binary64, a change that is not a number (a missing close in one
    of the last two rows gives one) is not caught: when the change of
    EURUSD, USDJPY or GBPUSD in the fetched snapshot is a NaN, the run
    still returns its page, with a basket impact and two fixes that are
    NaNs, and without the alert. *)
Theorem nan_move_is_not_flagged (W : Weights float)
    (yf_download : list string -> result (DataFrame float))
    (prev_close prev_fix : float) (ccf : Z)
    (data : gmap string (Quote float)) (pair : string) (q : Quote float) :
  gtb (of_int 1) (w_USD W) = true ->
  fst (get_market_data yf_download) = Some data ->
  In pair ["EURUSD"; "USDJPY"; "GBPUSD"] ->
  data !! pair = Some q ->
  PrimFloat.is_nan (chg q) = true ->
  exists events c,
    app W yf_download prev_close prev_fix ccf = Ok events /\
    calculation_engine W prev_close prev_fix (Some data) ccf = Ok c /\
    PrimFloat.is_nan (basket_pips c) = true /\
    PrimFloat.is_nan (predicted_fix c) = true /\
    PrimFloat.is_nan (theoretical_fix c) = true /\
    ~ In (st_warning HighVolatility) events.
Proof.
  intros Hw Hsome Hpair Hq Hnan.
  pose proof (b64_denominator _ Hw) as Hden.
  destruct (fetch_cases yf_download) as [(e & He)|(p & l & Hok)].
  { unfold get_market_data in Hsome. rewrite He in Hsome. discriminate Hsome. }
  assert (Hdata : data = snapshot_from p l).
  { unfold get_market_data in Hsome. rewrite Hok in Hsome. cbn [fst] in Hsome. congruence. }
  subst data.
  assert (Hb : PrimFloat.is_nan (impact_from W prev_fix p l) = true).
  { unfold impact_from. apply b64_nan_impact.
    cbn [In] in Hpair. destruct Hpair as [<-|[<-|[<-|[]]]];
      (assert (Hq' : q = quote_from p l _) by (symmetry; apply (inj Some); rewrite <- Hq; reflexivity));
      subst q; cbn [chg quote_from] in Hnan; auto. }
  assert (Hbasket : calculate_basket_impact W prev_fix (Some (snapshot_from p l)) =
                    Ok (impact_from W prev_fix p l)).
  { rewrite basket_snapshot_from, Hden. reflexivity. }
  pose proof (engine_returns b64_ten_thousand_nonzero W prev_close prev_fix _ ccf _ Hbasket)
    as Hengine.
  set (c := calc_of prev_close prev_fix (impact_from W prev_fix p l) ccf) in *.
  assert (Hpred : PrimFloat.is_nan (predicted_fix c) = true).
  { unfold c, calc_of. cbn [predicted_fix add quot b64_arith].
    apply b64_nan_add; right. apply b64_nan_div; left.
    apply b64_nan_add; left. apply b64_nan_add; right. exact Hb. }
  exists (moves_page p l ++ prediction_page prev_close c), c.
  split; [rewrite (app_after_success _ _ _ _ _ _ _ Hok), Hengine; reflexivity|].
  split; [exact Hengine|]. split; [exact Hb|]. split; [exact Hpred|].
  split.
  - unfold c, calc_of. cbn [theoretical_fix sub b64_arith].
    apply b64_nan_sub; left. exact Hpred.
  - unfold prediction_page.
    rewrite (b64_nan_not_greater _ _ (b64_nan_sub _ _ (or_introl Hpred))).
    unfold moves_page. cbn [In Datatypes.app]. intuition discriminate.
Qed.

End NotANumber.

Lemma nan_move_is_not_flagged_witness :
  let p : string -> float := fun _ => lit 1.00 in
  let l : string -> float := fun t => if String.eqb t "EURUSD=X" then PrimFloat.nan else lit 1.00 in
  exists events c,
    app WEIGHTS (two_days p l) (lit 6.9850) (lit 6.9820) (-10) = Ok events /\
    calculation_engine WEIGHTS (lit 6.9850) (lit 6.9820) (Some (snapshot_from p l)) (-10) = Ok c /\
    PrimFloat.is_nan (basket_pips c) = true /\
    PrimFloat.is_nan (predicted_fix c) = true /\
    PrimFloat.is_nan (theoretical_fix c) = true /\
    ~ In (st_warning HighVolatility) events.
Proof.
  intros p l.
  apply (nan_move_is_not_flagged WEIGHTS (two_days p l) (lit 6.9850) (lit 6.9820) (-10)
           (snapshot_from p l) "EURUSD" (quote_from p l "EURUSD=X")).
  - vm_compute. reflexivity.
  - unfold get_market_data.
    rewrite (try_market_data_Ok (two_days p l) _ [] p l eq_refl eq_refl); [reflexivity|].
    unfold snapshot_symbols. repeat constructor; vm_compute; reflexivity.
  - left. reflexivity.
  - reflexivity.
  - vm_compute. reflexivity.
Defined.

(** * Scenarios *)

(** The binary64 literals are the doubles CPython reads. *)
Example b64_literals :
  (lit 0.198 : float) = 0x1.95810624dd2f2p-3%float /\
  (lit 0.180 : float) = 0x1.70a3d70a3d70ap-3%float /\
  (lit 6.9850 : float) = 0x1.bf0a3d70a3d71p+2%float /\
  (lit 6.9820 : float) = 0x1.bed916872b021p+2%float /\
  (lit 0.0500 : float) = 0x1.999999999999ap-5%float /\
  (of_int (-10) : float) = (-0x1.4p+3)%float.
Proof. repeat split; vm_compute; reflexivity. Qed.

(** The default inputs of the page with no market data, exactly. *)
Example default_run_exact :
  exists c : Calc Q,
    calculation_engine WEIGHTS 6.9850%Q 6.9820%Q None (-10) = Ok c /\
    (gap_pips c == 30 /\ basket_pips c == 0 /\ total_change_pips c == 20 /\
     predicted_fix c == 6.9840 /\ theoretical_fix c == 6.9850)%Q.
Proof. eexists. split; [reflexivity|]. vm_compute. repeat split. Qed.

(** The same run in binary64: the two fixes are within [1e-9] of the exact
    ones. *)
Example default_run_b64 :
  exists c : Calc float,
    calculation_engine WEIGHTS (lit 6.9850) (lit 6.9820) None (-10) = Ok c /\
    gtb (lit 1e-9) (absv (predicted_fix c - lit 6.9840)%py) = true /\
    gtb (lit 1e-9) (absv (theoretical_fix c - lit 6.9850)%py) = true /\
    gtb (lit 1e-9)
        (absv (theoretical_fix c + quot (of_int (-10)) (of_int 10000) - predicted_fix c)%py)
      = true.
Proof.
  eexists. split.
  - apply (engine_returns b64_ten_thousand_nonzero), basket_absent.
  - vm_compute. repeat split.
Qed.

(** The run of the documentation with a full basket, exactly. *)
Example full_basket_run_exact :
  let d := snapshot_of {| rate := 1.0850%Q; chg := (-0.005)%Q |}
             {| rate := 151.20%Q; chg := 0.003%Q |}
             {| rate := 1.2640%Q; chg := (-0.002)%Q |}
             {| rate := 0.6540%Q; chg := 0%Q |} in
  exists c : Calc Q,
    calculation_engine WEIGHTS 6.9850%Q 6.9820%Q (Some d) 0 = Ok c /\
    (gap_pips c == 30 /\
     predicted_fix c == 6.9820 + (gap_pips c + basket_pips c) / 10000 /\
     theoretical_fix c == predicted_fix c)%Q.
Proof.
  intros d. eexists. split.
  - apply (engine_returns Q_ten_thousand_nonzero).
    unfold d. rewrite basket_snapshot_of. reflexivity.
  - vm_compute. repeat split.
Qed.

(** The same run in binary64: with [ccf_pips = 0] the two fixes are the same
    double, the double of [prev_fix + (gap_pips + basket_pips) / 10000]. *)
Example full_basket_run_b64 :
  let d := snapshot_of {| rate := lit 1.0850; chg := lit (-0.005) |}
             {| rate := lit 151.20; chg := lit 0.003 |}
             {| rate := lit 1.2640; chg := lit (-0.002) |}
             {| rate := lit 0.6540; chg := lit 0.0 |} in
  exists c : Calc float,
    calculation_engine WEIGHTS (lit 6.9850) (lit 6.9820) (Some d) 0 = Ok c /\
    predicted_fix c = (lit 6.9820 + quot (gap_pips c + basket_pips c) (of_int 10000))%py /\
    theoretical_fix c = predicted_fix c /\
    gtb (lit 0.00005) (absv (predicted_fix c - lit 6.9957)%py) = true.
Proof.
  intros d. eexists. split.
  - apply (engine_returns b64_ten_thousand_nonzero).
    unfold d. rewrite basket_snapshot_of. vm_compute. reflexivity.
  - vm_compute. repeat split.
Qed.

(** At the magnitudes of the documentation the rounding of the
    aggregation is in the last place: here the theoretical fix and
    [prev_fix + (gap_pips + basket_pips) / 10000] are different doubles less
    than [1e-9] apart. *)
Example rounded_identity_b64 :
  exists c : Calc float,
    calculation_engine WEIGHTS (lit 6.3990) (lit 7.8402) None 40 = Ok c /\
    let rhs := (lit 7.8402 + quot (gap_pips c + basket_pips c) (of_int 10000))%py in
    PrimFloat.eqb (theoretical_fix c) rhs = false /\
    gtb (lit 1e-9) (absv (theoretical_fix c - rhs)%py) = true.
Proof.
  eexists. split.
  - apply (engine_returns b64_ten_thousand_nonzero), basket_absent.
  - vm_compute. repeat split.
Qed.
